(** * validation-cloud-mcp: request validation and response normalisation

    A shallow embedding of [src/utils.ts] and [src/api.ts] (and of the
    guarded drafts of the same two files) together with the fragment of
    the ECMAScript runtime those files rely on: truthiness, [typeof],
    [String.prototype.replace], [parseInt], [BigInt], and the conversion
    of Number values to strings.

    Conventions.
    - A JavaScript Number is an IEEE 754 binary64 value, represented by
      [spec_float] at precision 53 and maximal exponent 1024.
    - A JavaScript string is a [string]; each [ascii] stands for the
      UTF-16 code unit with the same number, so the model covers strings
      whose code units are below 256.
    - A JavaScript object is a finite map from property names to values;
      property order is not observable in the model.
    - Code that may throw returns an [outcome]; an [async] function is
      modelled by the outcome its promise settles with.
    - The calls to the logger and to [console] are left out, and the
      request counter is an integer (it stays below 2^53). *)

From Stdlib Require Import ZArith NArith QArith Qround Qabs.
From Stdlib Require Import String Ascii List Bool Lia.
From Stdlib Require Import DecimalString DecimalN DecimalPos DecimalFacts.
From Stdlib Require Import Floats.SpecFloat.
From stdpp Require Import base option gmap strings list.

Close Scope Q_scope.
Local Open Scope string_scope.
Local Open Scope Z_scope.

Set Warnings "-register-all".

(* ===================================================================== *)
(** ** Outcomes of evaluation *)
(* ===================================================================== *)

(** The three native error constructors the modelled code can trigger. *)
Inductive native_error : Type :=
| TypeError
| SyntaxError
| RangeError.

Inductive outcome (E A : Type) : Type :=
| Ok (a : A)
| Throw (e : E).

Arguments Ok {E A} a.
Arguments Throw {E A} e.

Definition bind {E A B} (c : outcome E A) (k : A -> outcome E B) : outcome E B :=
  match c with
  | Ok a => k a
  | Throw e => Throw e
  end.

Definition omap {E A B} (f : A -> B) (c : outcome E A) : outcome E B :=
  bind c (fun a => Ok (f a)).

(** [try { c } catch (error) { h }] with a handler that ignores the error. *)
Definition try_catch {E A} (c : outcome E A) (h : A) : A :=
  match c with
  | Ok a => a
  | Throw _ => h
  end.

Definition returns {E A} (c : outcome E A) : Prop := exists a, c = Ok a.

Declare Scope js_scope.
Delimit Scope js_scope with js.
Notation "'let*' x ':=' c 'in' k" := (bind c (fun x => k))
  (at level 10, x name, c at level 100, k at level 200) : js_scope.
Local Open Scope js_scope.

(** Sequential evaluation of a callback over an array (left to right). *)
Fixpoint mapM {E A B} (f : A -> outcome E B) (l : list A) : outcome E (list B) :=
  match l with
  | [] => Ok []
  | x :: r => let* y := f x in let* ys := mapM f r in Ok (y :: ys)
  end.

(* ===================================================================== *)
(** ** Strings *)
(* ===================================================================== *)

Module Str.

(** [s.startsWith(p)] *)
Definition startsWith (s p : string) : bool := String.prefix p s.

Fixpoint drop (n : nat) (s : string) : string :=
  match n, s with
  | O, _ => s
  | S n', String _ r => drop n' r
  | S _, EmptyString => EmptyString
  end.

Fixpoint take (n : nat) (s : string) : string :=
  match n, s with
  | S n', String c r => String c (take n' r)
  | _, _ => EmptyString
  end.

(** [s.replace(pat, rep)] for a string pattern: only the first occurrence
    is replaced. The replacement texts used by the sources contain no [$]. *)
Fixpoint replace (pat rep s : string) : string :=
  if String.prefix pat s then rep +:+ drop (String.length pat) s
  else match s with
       | EmptyString => EmptyString
       | String c r => String c (replace pat rep r)
       end.

Fixpoint repeat (c : ascii) (n : nat) : string :=
  match n with
  | O => EmptyString
  | S n' => String c (repeat c n')
  end.

(** White space and line terminators among the code units below 256:
    TAB, LF, VT, FF, CR, SP and NBSP. *)
Definition isWhiteSpace (c : ascii) : bool :=
  let n := N_of_ascii c in
  ((9 <=? n) && (n <=? 13) || (n =? 32) || (n =? 160))%N.

Fixpoint trimStart (s : string) : string :=
  match s with
  | String c r => if isWhiteSpace c then trimStart r else s
  | EmptyString => EmptyString
  end.

Fixpoint trimEnd (s : string) : string :=
  match s with
  | EmptyString => EmptyString
  | String c r =>
      match trimEnd r with
      | EmptyString => if isWhiteSpace c then EmptyString else String c EmptyString
      | r' => String c r'
      end
  end.

Definition trim (s : string) : string := trimEnd (trimStart s).

(** Value of a code unit as a digit of the given radix (at most 16). *)
Definition digit (radix : N) (c : ascii) : option N :=
  let n := N_of_ascii c in
  let v :=
    if ((48 <=? n) && (n <=? 57))%N then Some (n - 48)%N
    else if ((97 <=? n) && (n <=? 102))%N then Some (n - 87)%N
    else if ((65 <=? n) && (n <=? 70))%N then Some (n - 55)%N
    else None in
  match v with
  | Some d => if (d <? radix)%N then Some d else None
  | None => None
  end.

(** The longest prefix of [s] made of digits of the radix. *)
Fixpoint takeDigits (radix : N) (s : string) : string :=
  match s with
  | EmptyString => EmptyString
  | String c r =>
      match digit radix c with
      | Some _ => String c (takeDigits radix r)
      | None => EmptyString
      end
  end.

(** The digits of [s] read most significant first on top of [acc];
    [None] when a code unit of [s] is no digit of the radix. *)
Fixpoint readDigits (radix : N) (s : string) (acc : N) : option N :=
  match s with
  | EmptyString => Some acc
  | String c r =>
      match digit radix c with
      | Some d => readDigits radix r (acc * radix + d)%N
      | None => None
      end
  end.

(** A non-empty string made only of digits of the radix, as a number. *)
Definition digits (radix : N) (s : string) : option N :=
  match s with
  | EmptyString => None
  | _ => readDigits radix s 0%N
  end.

(** Decimal numeral of a natural number, without leading zeros. *)
Definition ofN (n : N) : string := NilZero.string_of_uint (N.to_uint n).

Definition ofZ (z : Z) : string :=
  match z with
  | Zneg p => "-" +:+ ofN (Npos p)
  | _ => ofN (Z.to_N z)
  end.

End Str.

(* ===================================================================== *)
(** ** Number values *)
(* ===================================================================== *)

Module Num.

Definition number : Type := spec_float.

Definition prec : Z := 53.
Definition emax : Z := 1024.

Definition NaN : number := S754_nan.

(** The Number value for an integer: round to nearest, ties to even. *)
Definition ofZ (z : Z) : number := binary_normalize prec emax z 0 false.

(** The Number value for the positive rational [num / den]. *)
Definition ofRatio (num den : positive) : number :=
  let '(q, e, l) := SFdiv_core_binary prec emax (Zpos num) 0 (Zpos den) 0 in
  binary_round_aux prec emax false q e l.

(** The Number value for [s * 10 ^ p], with [s] positive. *)
Definition ofDecimal (s : positive) (p : Z) : number :=
  match p with
  | Zneg q => ofRatio s (10 ^ q)%positive
  | _ => ofZ (Zpos s * 10 ^ p)
  end.

Definition div (x y : number) : number := SFdiv prec emax x y.

Definition isNaN (x : number) : bool :=
  match x with S754_nan => true | _ => false end.

(** [ToBoolean] on Numbers: zero of either sign and NaN are falsy. *)
Definition toBoolean (x : number) : bool :=
  match x with
  | S754_zero _ | S754_nan => false
  | _ => true
  end.

(** The mathematical value of a finite Number, when it is an integer. *)
Definition toInteger (x : number) : option Z :=
  match x with
  | S754_zero _ => Some 0
  | S754_finite s m e =>
      let v := if s then Zneg m else Zpos m in
      match e with
      | Zneg q => if (Zpos m mod 2 ^ Zpos q =? 0) then Some (v / 2 ^ Zpos q) else None
      | _ => Some (v * 2 ^ e)
      end
  | _ => None
  end.

(** *** Number::toString, radix 10 *)

Definition pow10 (p : Z) : Q := Qpower (10 # 1) p.

(** The value of a positive finite Number as a rational. *)
Definition magnitude (m : positive) (e : Z) : Q :=
  Qmult (inject_Z (Zpos m)) (Qpower (2 # 1) e).

(** The [n] with [10 ^ (n - 1) <= x < 10 ^ n], for [x] between the
    least and the greatest positive Number. *)
Definition decimalExponent (x : Q) : Z :=
  let y := Qfloor (Qmult x (pow10 400)) in
  Z.of_nat (String.length (Str.ofN (Z.to_N y))) - 400.

(** For a digit count [k]: the pairs [(n, s)] with
    [10 ^ (k - 1) <= s < 10 ^ k] whose decimal [s * 10 ^ (n - k)] has
    [x] as its Number value. For each [n] only the two [s] next to
    [x / 10 ^ (n - k)] can be nearest to [x]; [n] is within one of the
    decimal exponent of [x]. *)
Definition candidates (x : number) (xq : Q) (k : Z) : list (Z * Z) :=
  let nx := decimalExponent xq in
  let admissible (c : Z * Z) : bool :=
    let '(n, s) := c in
    (10 ^ (k - 1) <=? s) && (s <? 10 ^ k) &&
    SFeqb (ofDecimal (Z.to_pos s) (n - k)) x in
  List.flat_map
    (fun n =>
       let s0 := Qfloor (Qdiv xq (pow10 (n - k))) in
       List.filter admissible [(n, s0); (n, s0 + 1)])
    [nx - 1; nx; nx + 1].

(** Of two candidates with the same [k], the one whose decimal is nearer
    to [x]; at equal distance the one with even [s]. *)
Definition nearer (xq : Q) (k : Z) (a b : Z * Z) : Z * Z :=
  let dist (c : Z * Z) : Q :=
    Qabs (Qminus (Qmult (inject_Z (snd c)) (pow10 (fst c - k))) xq) in
  match Qcompare (dist a) (dist b) with
  | Lt => a
  | Gt => b
  | Eq => if Z.even (snd a) then a else b
  end.

(** The integers [n], [k], [s] of Number::toString: [k] as small as
    possible; seventeen digits always suffice for a binary64 value. *)
Fixpoint shortest (x : number) (xq : Q) (ks : list Z) : Z * Z * Z :=
  match ks with
  | [] => let n := decimalExponent xq in (n, 17, Qfloor (Qdiv xq (pow10 (n - 17))))
  | k :: rest =>
      match candidates x xq k with
      | [] => shortest x xq rest
      | c :: cs => let '(n, s) := List.fold_left (nearer xq k) cs c in (n, k, s)
      end
  end.

Definition digitCounts : list Z :=
  [1; 2; 3; 4; 5; 6; 7; 8; 9; 10; 11; 12; 13; 14; 15; 16; 17].

Definition zeros (n : Z) : string := Str.repeat "0"%char (Z.to_nat n).

Definition exponentPart (n : Z) : string :=
  "e" +:+ (if n - 1 <? 0 then "-" else "+") +:+ Str.ofN (Z.abs_N (n - 1)).

(** The layout rules of Number::toString for the digits of [s]. *)
Definition render (n k : Z) (ds : string) : string :=
  if (k <=? n) && (n <=? 21) then ds +:+ zeros (n - k)
  else if (0 <? n) && (n <=? 21) then
    Str.take (Z.to_nat n) ds +:+ "." +:+ Str.drop (Z.to_nat n) ds
  else if (-6 <? n) && (n <=? 0) then "0." +:+ zeros (- n) +:+ ds
  else if k =? 1 then ds +:+ exponentPart n
  else Str.take 1 ds +:+ "." +:+ Str.drop 1 ds +:+ exponentPart n.

Definition toString (x : number) : string :=
  match x with
  | S754_nan => "NaN"
  | S754_zero _ => "0"
  | S754_infinity s => if s then "-Infinity" else "Infinity"
  | S754_finite s m e =>
      let '(n, k, d) := shortest (binary_round prec emax false m e) (magnitude m e)
                          digitCounts in
      (if s then "-" else "") +:+ render n k (Str.ofN (Z.to_N d))
  end.

End Num.

(* ===================================================================== *)
(** ** Values and the runtime operations the sources use *)
(* ===================================================================== *)

(** Values that a parsed JSON document, a property read or the modelled
    code can produce. *)
Inductive value : Type :=
| VUndefined
| VNull
| VBool (b : bool)
| VNum (x : Num.number)
| VStr (s : string)
| VArr (items : list value)
| VObj (props : gmap string value).

Module JS.

(** [ToBoolean]: what [!v], [v && e] and [v ? a : b] test. *)
Definition toBoolean (v : value) : bool :=
  match v with
  | VUndefined | VNull => false
  | VBool b => b
  | VNum x => Num.toBoolean x
  | VStr s => negb (String.eqb s "")
  | VArr _ | VObj _ => true
  end.

Definition typeof (v : value) : string :=
  match v with
  | VUndefined => "undefined"
  | VNull | VArr _ | VObj _ => "object"
  | VBool _ => "boolean"
  | VNum _ => "number"
  | VStr _ => "string"
  end.

(** The own enumerable properties of a value, which is what the spread
    [{...v}] copies: the entries of an object, the elements of an array
    under their indices, the code units of a string under theirs. *)
Definition indexed {A} (f : A -> value) (l : list A) : gmap string value :=
  list_to_map (imap (fun i a => (Str.ofN (N.of_nat i), f a)) l).

Definition ownProps (v : value) : gmap string value :=
  match v with
  | VObj m => m
  | VArr l => indexed (fun x => x) l
  | VStr s => indexed (fun c => VStr (String c EmptyString)) (list_ascii_of_string s)
  | _ => ∅
  end.

(** The property read [v.k] on an object or array, for a name [k] that
    is not [length] and that the built-in prototypes do not define (all
    names read by the sources are such). *)
Definition get (v : value) (k : string) : value :=
  match v with
  | VObj _ | VArr _ => default VUndefined (ownProps v !! k)
  | _ => VUndefined
  end.

(** [ToString]. An object from JSON has no callable property of its
    own, so one with an own [toString] entry cannot be converted; any
    other object is ["[object Object]"]. An array is the join of its
    elements, [null] and [undefined] counting as empty. *)
Fixpoint toString (v : value) : outcome native_error string :=
  match v with
  | VUndefined => Ok "undefined"
  | VNull => Ok "null"
  | VBool b => Ok (if b then "true" else "false")
  | VNum x => Ok (Num.toString x)
  | VStr s => Ok s
  | VArr l =>
      (fix join (l : list value) : outcome native_error string :=
         match l with
         | [] => Ok ""
         | x :: r =>
             let* sx := match x with
                        | VUndefined | VNull => Ok ""
                        | _ => toString x
                        end in
             match r with
             | [] => Ok sx
             | _ => let* sr := join r in Ok (sx +:+ "," +:+ sr)
             end
         end) l
  | VObj m =>
      match m !! "toString" with
      | Some _ => Throw TypeError
      | None => Ok "[object Object]"
      end
  end.

(** The method call [v.toString()]. *)
Definition toStringMethod (v : value) : outcome native_error string :=
  match v with
  | VUndefined | VNull => Throw TypeError
  | _ => toString v
  end.

(** The method call [v.replace(pat, rep)]: only strings have the method. *)
Definition replaceMethod (v : value) (pat rep : string) : outcome native_error string :=
  match v with
  | VStr s => Ok (Str.replace pat rep s)
  | _ => Throw TypeError
  end.

(** [parseInt(input, 16)] on a string. *)
Definition parseInt16 (input : string) : Num.number :=
  let s := Str.trimStart input in
  let '(sign, s) :=
    match s with
    | String "-" r => (true, r)
    | String "+" r => (false, r)
    | _ => (false, s)
    end in
  let s :=
    match s with
    | String "0" (String c r) =>
        if Ascii.eqb c "x" || Ascii.eqb c "X" then r else s
    | _ => s
    end in
  match Str.digits 16 (Str.takeDigits 16 s) with
  | None => Num.NaN
  | Some 0%N => S754_zero sign
  | Some n => Num.ofZ (if sign then - Z.of_N n else Z.of_N n)
  end.

(** [StringToBigInt]: [None] where the text is no StringIntegerLiteral. *)
Definition stringToBigInt (text : string) : option Z :=
  let t := Str.trim text in
  let unsigned (radix : N) (ds : string) : option Z :=
    Z.of_N <$> Str.digits radix ds in
  match t with
  | EmptyString => Some 0
  | String "+" r => unsigned 10%N r
  | String "-" r => Z.opp <$> unsigned 10%N r
  | String "0" (String c r) =>
      if Ascii.eqb c "x" || Ascii.eqb c "X" then unsigned 16%N r
      else if Ascii.eqb c "o" || Ascii.eqb c "O" then unsigned 8%N r
      else if Ascii.eqb c "b" || Ascii.eqb c "B" then unsigned 2%N r
      else unsigned 10%N t
  | _ => unsigned 10%N t
  end.

(** The call [BigInt(v)]. *)
Definition toBigInt (v : value) : outcome native_error Z :=
  let ofText (s : string) : outcome native_error Z :=
    match stringToBigInt s with
    | Some z => Ok z
    | None => Throw SyntaxError
    end in
  match v with
  | VUndefined | VNull => Throw TypeError
  | VBool b => Ok (if b then 1 else 0)
  | VNum x =>
      match Num.toInteger x with
      | Some z => Ok z
      | None => Throw RangeError
      end
  | VStr s => ofText s
  | VArr _ | VObj _ => let* s := toString v in ofText s
  end.

(** The strict comparison [v === s] with a string literal. *)
Definition isString (v : value) (s : string) : bool :=
  match v with
  | VStr t => String.eqb t s
  | _ => false
  end.

End JS.

(* ===================================================================== *)
(** ** The transaction transform *)
(* ===================================================================== *)

(** [transformTransaction] has the same text in [src/utils.ts] and in the
    guarded draft; it is written once, over the three conversions of the
    file it sits in. *)
Section Transaction.

Variable hexToDecimal : value -> outcome native_error Num.number.
Variable hexToDecimalString : value -> outcome native_error string.
Variable weiToEther : value -> outcome native_error string.

(** [v ? hexToDecimal(v) : null] *)
Definition convertOrNull (v : value) : outcome native_error value :=
  if JS.toBoolean v then omap VNum (hexToDecimal v) else Ok VNull.

(** [...(v && { k: hexToDecimal(v) })] inside the literal that has
    produced [o] so far: a falsy [v] spreads nothing. *)
Definition spreadConverted (k : string) (v : value) (o : gmap string value)
  : outcome native_error (gmap string value) :=
  if JS.toBoolean v then
    let* d := hexToDecimal v in Ok (<[k := VNum d]> o)
  else Ok o.

(** [{ wei: hexToDecimalString(v), ether: weiToEther(v) }] *)
Definition weiAndEther (v : value) : outcome native_error value :=
  let* wei := hexToDecimalString v in
  let* ether := weiToEther v in
  Ok (VObj (<["ether" := VStr ether]> (<["wei" := VStr wei]> ∅))).

Definition transformTransaction (tx : value) : outcome native_error value :=
  if negb (JS.toBoolean tx) || negb (String.eqb (JS.typeof tx) "object") then Ok tx
  else
    let o := JS.ownProps tx in
    let* blockNumber := convertOrNull (JS.get tx "blockNumber") in
    let o := <["blockNumber" := blockNumber]> o in
    let* transactionIndex := convertOrNull (JS.get tx "transactionIndex") in
    let o := <["transactionIndex" := transactionIndex]> o in
    let* gas := hexToDecimal (JS.get tx "gas") in
    let o := <["gas" := VNum gas]> o in
    let* gasPrice := convertOrNull (JS.get tx "gasPrice") in
    let o := <["gasPrice" := gasPrice]> o in
    let* nonce := hexToDecimal (JS.get tx "nonce") in
    let o := <["nonce" := VNum nonce]> o in
    let* val := weiAndEther (JS.get tx "value") in
    let o := <["value" := val]> o in
    let* o := spreadConverted "gasUsed" (JS.get tx "gasUsed") o in
    let* o := spreadConverted "cumulativeGasUsed" (JS.get tx "cumulativeGasUsed") o in
    let* o := spreadConverted "effectiveGasPrice" (JS.get tx "effectiveGasPrice") o in
    Ok (VObj o).

(** The callback of the [transactions] map:
    [typeof tx === 'object' ? transformTransaction(tx) : tx]. *)
Definition transformElement (tx : value) : outcome native_error value :=
  if String.eqb (JS.typeof tx) "object" then transformTransaction tx else Ok tx.

End Transaction.

(** Membership of the switch discriminant in a group of [case] labels. *)
Definition oneOf (method : string) (labels : list string) : bool :=
  existsb (String.eqb method) labels.

(* ===================================================================== *)
(** ** [src/utils.ts] *)
(* ===================================================================== *)

Module Utils.

Definition hexToDecimal (hex : value) : outcome native_error Num.number :=
  if negb (JS.toBoolean hex) then Ok (Num.ofZ 0)
  else
    let* clean := JS.replaceMethod hex "0x" "" in
    Ok (JS.parseInt16 clean).

Definition hexToDecimalString (hex : value) : outcome native_error string :=
  if negb (JS.toBoolean hex) then Ok "0"
  else
    let* cleanHex := JS.replaceMethod hex "0x" "" in
    let* n := JS.toBigInt (VStr ("0x" +:+ cleanHex)) in
    Ok (Str.ofZ n).

Definition weiToEther (weiHex : value) : outcome native_error string :=
  if negb (JS.toBoolean weiHex) then Ok "0"
  else
    let* wei := JS.toBigInt weiHex in
    let ether := Num.div (Num.ofZ wei) (Num.ofZ (10 ^ 18)) in
    Ok (Num.toString ether).

Definition transformTransaction : value -> outcome native_error value :=
  transformTransaction hexToDecimal hexToDecimalString weiToEther.

(** [v.map(f)]: only an array has the method. *)
Definition mapMethod (f : value -> outcome native_error value) (v : value)
  : outcome native_error value :=
  match v with
  | VArr l => omap VArr (mapM f l)
  | _ => Throw TypeError
  end.

Definition transformResponse (method : string) (result : value)
  : outcome native_error value :=
  if negb (JS.toBoolean result) then Ok result
  else if oneOf method ["eth_blockNumber"; "eth_gasPrice"; "eth_estimateGas"] then
    omap VNum (hexToDecimal result)
  else if oneOf method ["eth_getBalance"] then
    weiAndEther hexToDecimalString weiToEther result
  else if oneOf method ["eth_getBlockByNumber"; "eth_getBlockByHash"] then
    if String.eqb (JS.typeof result) "object" then
      let o := JS.ownProps result in
      let* number := hexToDecimal (JS.get result "number") in
      let o := <["number" := VNum number]> o in
      let* gasLimit := hexToDecimal (JS.get result "gasLimit") in
      let o := <["gasLimit" := VNum gasLimit]> o in
      let* gasUsed := hexToDecimal (JS.get result "gasUsed") in
      let o := <["gasUsed" := VNum gasUsed]> o in
      let* timestamp := hexToDecimal (JS.get result "timestamp") in
      let o := <["timestamp" := VNum timestamp]> o in
      let* transactions :=
        mapMethod
          (transformElement hexToDecimal hexToDecimalString weiToEther)
          (JS.get result "transactions") in
      Ok (VObj (<["transactions" := transactions]> o))
    else Ok result
  else if oneOf method ["eth_getTransactionByHash"; "eth_getTransactionReceipt"] then
    transformTransaction result
  else Ok result.

End Utils.

(* ===================================================================== *)
(** ** The guarded draft of [utils.ts] *)
(* ===================================================================== *)

Module UtilsGuarded.

Definition hexToDecimal (hex : value) : outcome native_error Num.number :=
  if negb (JS.toBoolean hex) || JS.isString hex "0x" then Ok (Num.ofZ 0)
  else
    let* text := JS.toStringMethod hex in
    let cleanHex := Str.replace "0x" "" text in
    let result := JS.parseInt16 cleanHex in
    Ok (if Num.isNaN result then Num.ofZ 0 else result).

Definition hexToDecimalString (hex : value) : outcome native_error string :=
  if negb (JS.toBoolean hex) || JS.isString hex "0x" then Ok "0"
  else
    Ok (try_catch
          (let* text := JS.toStringMethod hex in
           let cleanHex := Str.replace "0x" "" text in
           if String.eqb cleanHex "" then Ok "0"
           else
             let* n := JS.toBigInt (VStr ("0x" +:+ cleanHex)) in
             Ok (Str.ofZ n))
          "0").

Definition weiToEther (weiHex : value) : outcome native_error string :=
  if negb (JS.toBoolean weiHex) || JS.isString weiHex "0x" then Ok "0"
  else
    Ok (try_catch
          (let* wei := JS.toBigInt weiHex in
           let ether := Num.div (Num.ofZ wei) (Num.ofZ (10 ^ 18)) in
           Ok (Num.toString ether))
          "0").

Definition transformTransaction : value -> outcome native_error value :=
  transformTransaction hexToDecimal hexToDecimalString weiToEther.

(** [...(v && { transactions: Array.isArray(v) ? v.map(f) : v })] *)
Definition spreadTransactions (v : value) (o : gmap string value)
  : outcome native_error (gmap string value) :=
  if JS.toBoolean v then
    let* mapped :=
      match v with
      | VArr l =>
          omap VArr
            (mapM (transformElement hexToDecimal hexToDecimalString weiToEther) l)
      | _ => Ok v
      end in
    Ok (<["transactions" := mapped]> o)
  else Ok o.

Definition transformResponse (method : string) (result : value)
  : outcome native_error value :=
  if negb (JS.toBoolean result) then Ok result
  else if oneOf method ["eth_blockNumber"; "eth_gasPrice"; "eth_estimateGas"] then
    omap VNum (hexToDecimal result)
  else if oneOf method ["eth_getBalance"] then
    if negb (String.eqb (JS.typeof result) "string") then Ok result
    else weiAndEther hexToDecimalString weiToEther result
  else if oneOf method ["eth_getBlockByNumber"; "eth_getBlockByHash"] then
    if String.eqb (JS.typeof result) "object" then
      let o := JS.ownProps result in
      let* o := spreadConverted hexToDecimal "number" (JS.get result "number") o in
      let* o := spreadConverted hexToDecimal "gasLimit" (JS.get result "gasLimit") o in
      let* o := spreadConverted hexToDecimal "gasUsed" (JS.get result "gasUsed") o in
      let* o := spreadConverted hexToDecimal "timestamp" (JS.get result "timestamp") o in
      let* o := spreadTransactions (JS.get result "transactions") o in
      Ok (VObj o)
    else Ok result
  else if oneOf method ["eth_getTransactionByHash"; "eth_getTransactionReceipt"] then
    transformTransaction result
  else Ok result.

End UtilsGuarded.

(* ===================================================================== *)
(** ** [src/types.ts] and [src/api.ts] *)
(* ===================================================================== *)

Module Api.

(** What the promise returned by the HTTP client rejects with, as far as
    the [catch] block of [request] looks at it. *)
Record rejection : Type := {
  isAxiosError : bool;              (* [axios.isAxiosError(error)] *)
  instanceOfError : bool;           (* [error instanceof Error] *)
  errorMessage : value;             (* [error.message] *)
  errorResponse : option (value * value)  (* [error.response]: status and data *)
}.

(** Everything that can be thrown inside [request]. *)
Inductive error : Type :=
  | Native (e : native_error)
  | ValidationCloudError (message : string) (code details : value)
  | Rejected (r : rejection).

Module EthereumErrorCode.
Definition PARSE_ERROR : Z := -32700.
Definition INVALID_PARAMS : Z := -32602.
Definition METHOD_NOT_FOUND : Z := -32601.
Definition INTERNAL_ERROR : Z := -32603.
Definition SERVER_ERROR : Z := -32000.
End EthereumErrorCode.

(** [new ValidationCloudError(message, code, details)]: the [Error]
    constructor stores [ToString(message)], which can throw; without a
    message the instance inherits the empty one. *)
Definition newValidationCloudError (message code details : value) : error :=
  match message with
  | VUndefined => ValidationCloudError "" code details
  | _ =>
      match JS.toString message with
      | Ok text => ValidationCloudError text code details
      | Throw e => Native e
      end
  end.

(** [new ValidationCloudError(message, EthereumErrorCode.INVALID_PARAMS)] *)
Definition invalidParams (message : string) : error :=
  newValidationCloudError (VStr message)
    (VNum (Num.ofZ EthereumErrorCode.INVALID_PARAMS)) VUndefined.

Record NodeRequestParams : Type := {
  method : string;
  params : option (list value)
}.

(** The JSON-RPC envelope handed to the HTTP client. *)
Record requestBody : Type := {
  jsonrpc : string;
  id : Z;
  bodyMethod : string;
  bodyParams : list value
}.

Definition lift {A} (c : outcome native_error A) : outcome error A :=
  match c with
  | Ok a => Ok a
  | Throw e => Throw (Native e)
  end.

(** [private validateParams(method, params)]; the text is the same in
    every draft of [api.ts]. *)
Definition validateParams (method : string) (params : option (list value))
  : outcome error unit :=
  let arity (n : nat) : bool :=
    match params with
    | Some l => Nat.eqb (length l) n
    | None => false
    end in
  let first : value := default VUndefined (default [] params !! 0%nat) in
  let hexString (v : value) : bool :=
    match v with
    | VStr s => Str.startsWith s "0x"
    | _ => false
    end in
  if oneOf method ["eth_getBalance"] then
    if negb (arity 2%nat) then
      Throw (invalidParams "eth_getBalance requires address and block parameters")
    else if negb (String.eqb (JS.typeof first) "string") || negb (hexString first) then
      Throw (invalidParams "Invalid address parameter")
    else Ok tt
  else if oneOf method ["eth_getTransactionByHash"] then
    if negb (arity 1%nat) || negb (String.eqb (JS.typeof first) "string")
       || negb (hexString first) then
      Throw (invalidParams "Invalid transaction hash parameter")
    else Ok tt
  else if oneOf method ["eth_getLogs"] then
    if negb (arity 1%nat) || negb (String.eqb (JS.typeof first) "object") then
      Throw (invalidParams "eth_getLogs requires a filter object parameter")
    else Ok tt
  else Ok tt.

Section Client.

(** The normaliser imported from [./utils.js]. *)
Variable transformResponse : string -> value -> outcome native_error value.

(** The HTTP client: [this.client.post('', body)] resolves with a
    response whose [data] is given, or rejects. *)
Variable post : requestBody -> outcome rejection value.

(** The [message] of a native error is chosen by the engine. *)
Variable nativeMessage : native_error -> string.

(** [a || b] *)
Definition orElse (a b : value) : value := if JS.toBoolean a then a else b.

(** The [catch] block of [request]: what is thrown in the end. *)
Definition rethrow (e : error) : error :=
  match e with
  | Rejected r =>
      if isAxiosError r then
        let status := match errorResponse r with Some (s, _) => s | None => VUndefined end in
        let data := match errorResponse r with Some (_, d) => d | None => VUndefined end in
        let message :=
          match data with
          | VUndefined | VNull => VUndefined
          | _ => JS.get data "message"
          end in
        newValidationCloudError (orElse message (errorMessage r)) status data
      else
        newValidationCloudError
          (if instanceOfError r then errorMessage r else VStr "Unknown error")
          VUndefined VUndefined
  | ValidationCloudError _ _ _ => e
  | Native n => newValidationCloudError (VStr (nativeMessage n)) VUndefined VUndefined
  end.

(** The statements of [request] after the call to the HTTP client has
    resolved with [data]. *)
Definition normalise (method : string) (data : value) : outcome error value :=
  match data with
  | VUndefined | VNull => Throw (Native TypeError)
  | _ =>
      let result := JS.get data "result" in
      match result, data with
      | VUndefined, _ => Ok data
      | _, VObj m =>
          let* r := lift (transformResponse method result) in
          Ok (VObj (<["result" := r]> m))
      | _, _ => Ok data
      end
  end.

(** The body of the [try] block from the envelope on, for a request
    identifier [ident]; the envelope is returned with the outcome
    because building it is followed at once by the outbound call. *)
Definition send (ident : Z) (p : NodeRequestParams) : requestBody * outcome error value :=
  let body := {| jsonrpc := "2.0"; id := ident; bodyMethod := method p;
                 bodyParams := default [] (params p) |} in
  (body,
   match post body with
   | Throw r => Throw (Rejected r)
   | Ok data => normalise (method p) data
   end).

Definition caught {A} (c : outcome error A) : outcome error A :=
  match c with
  | Ok a => Ok a
  | Throw e => Throw (rethrow e)
  end.

(** State of a [ValidationCloudAPI] instance ([messageId]) together with
    the envelopes it has handed to the HTTP client so far. *)
Record client : Type := {
  messageId : Z;
  sent : list requestBody
}.

(** [async request(params)] of [src/api.ts]. *)
Definition request (c : client) (p : NodeRequestParams) : client * outcome error value :=
  match validateParams (method p) (params p) with
  | Throw e => (c, Throw (rethrow e))
  | Ok _ =>
      let '(body, r) := send (messageId c) p in
      ({| messageId := messageId c + 1; sent := (sent c ++ [body])%list |}, caught r)
  end.

(** [async request(params)] of the draft whose envelope takes
    [Date.now()], here [now], as identifier. *)
Definition requestAt (now : Z) (log : list requestBody) (p : NodeRequestParams)
  : list requestBody * outcome error value :=
  match validateParams (method p) (params p) with
  | Throw e => (log, Throw (rethrow e))
  | Ok _ =>
      let '(body, r) := send now p in
      ((log ++ [body])%list, caught r)
  end.

(** [async testConnection()] *)
Definition testConnection (c : client) : client * bool :=
  let '(c', r) := request c {| method := "eth_blockNumber"; params := None |} in
  (c', match r with Ok _ => true | Throw _ => false end).

End Client.

End Api.

(* ===================================================================== *)
(** ** Vocabulary of the statements *)
(* ===================================================================== *)

(** An object literal. *)
Definition obj (entries : list (string * value)) : value :=
  VObj (list_to_map entries).

(** A Number given by an integer. *)
Definition num (z : Z) : value := VNum (Num.ofZ z).

(** What the sources test with [typeof v === 'object'] after ruling out
    falsy values: objects and arrays. *)
Definition isObject (v : value) : bool :=
  JS.toBoolean v && String.eqb (JS.typeof v) "object".

Section Policies.

Variable hexToDecimal : value -> outcome native_error Num.number.
Variable hexToDecimalString : value -> outcome native_error string.
Variable weiToEther : value -> outcome native_error string.

Definition nullableFields : list string :=
  ["blockNumber"; "transactionIndex"; "gasPrice"].
Definition plainFields : list string := ["gas"; "nonce"].
Definition optionalFields : list string :=
  ["gasUsed"; "cumulativeGasUsed"; "effectiveGasPrice"].
Definition rewrittenFields : list string :=
  (nullableFields ++ plainFields ++ ["value"] ++ optionalFields)%list.

(** The output field is the [hexToDecimal] conversion of the source. *)
Definition converted (source : value) (field : option value) : Prop :=
  exists d, hexToDecimal source = Ok d /\ field = Some (VNum d).

(** The field-by-field policy of the transaction transform, relating
    the source [tx] with the properties [out] of the result. *)
Record transactionPolicy (tx : value) (out : gmap string value) : Prop := {
  policy_nullable : forall k, In k nullableFields ->
    if JS.toBoolean (JS.get tx k) then converted (JS.get tx k) (out !! k)
    else out !! k = Some VNull;
  policy_plain : forall k, In k plainFields ->
    converted (JS.get tx k) (out !! k);
  policy_value : exists wei ether,
    hexToDecimalString (JS.get tx "value") = Ok wei /\
    weiToEther (JS.get tx "value") = Ok ether /\
    out !! "value" = Some (obj [("wei", VStr wei); ("ether", VStr ether)]);
  policy_optional : forall k, In k optionalFields ->
    if JS.toBoolean (JS.get tx k) then converted (JS.get tx k) (out !! k)
    else out !! k = JS.ownProps tx !! k;
  policy_other : forall k, ~ In k rewrittenFields ->
    out !! k = JS.ownProps tx !! k
}.

(** One of the conversions the transform applies to [tx] throws [e]. *)
Definition conversionThrows (tx : value) (e : native_error) : Prop :=
  (exists k, In k (nullableFields ++ optionalFields)%list /\
             JS.toBoolean (JS.get tx k) = true /\
             hexToDecimal (JS.get tx k) = Throw e) \/
  (exists k, In k plainFields /\ hexToDecimal (JS.get tx k) = Throw e) \/
  hexToDecimalString (JS.get tx "value") = Throw e \/
  weiToEther (JS.get tx "value") = Throw e.

Definition blockFields : list string :=
  ["number"; "gasLimit"; "gasUsed"; "timestamp"].

(** The rule for block results as the specification words it, relating
    the source [block] with the properties [out] of the result. *)
Record blockPolicy (block : value) (out : gmap string value) : Prop := {
  block_numeric : forall k, In k blockFields ->
    if JS.toBoolean (JS.get block k) then converted (JS.get block k) (out !! k)
    else out !! k = JS.ownProps block !! k;
  block_transactions :
    match JS.get block "transactions" with
    | VArr txs =>
        exists txs', out !! "transactions" = Some (VArr txs') /\
          Forall2
            (fun tx tx' =>
               if String.eqb (JS.typeof tx) "object"
               then transformTransaction hexToDecimal hexToDecimalString weiToEther tx
                    = Ok tx'
               else tx' = tx)
            txs txs'
    | _ => out !! "transactions" = JS.ownProps block !! "transactions"
    end;
  block_other : forall k, ~ In k ("transactions" :: blockFields) ->
    out !! k = JS.ownProps block !! k
}.

End Policies.

(** The methods with a rule of their own in each component. *)
Definition validatedMethods : list string :=
  ["eth_getBalance"; "eth_getTransactionByHash"; "eth_getLogs"].

Definition normalisedMethods : list string :=
  ["eth_blockNumber"; "eth_gasPrice"; "eth_estimateGas"; "eth_getBalance";
   "eth_getBlockByNumber"; "eth_getBlockByHash"; "eth_getTransactionByHash";
   "eth_getTransactionReceipt"].

(** An argument of the type the guarded conversions declare:
    [string | null | undefined]. *)
Definition declaredArgument (v : value) : Prop :=
  v = VNull \/ v = VUndefined \/ exists s, v = VStr s.

(** A non-empty string of hexadecimal digits that encodes [n]. *)
Definition encodesHex (digits : string) (n : N) : Prop :=
  Str.digits 16 digits = Some n.

(* ===================================================================== *)
(** ** The constructor of [ValidationCloudAPI] ([src/api.ts]) *)
(* ===================================================================== *)

Module Setup.

Definition DEFAULT_BASE_URL : string :=
  "https://mainnet.ethereum.validationcloud.io/v1".
Definition DEFAULT_TIMEOUT : Z := 30000.

(** The fields of the configuration object the constructor reads; an
    absent field is [VUndefined]. *)
Record ValidationCloudConfig : Type := {
  apiKey : value;
  baseURL : value;
  timeout : value
}.

(** The argument of [axios.create]. *)
Record axiosConfig : Type := {
  axiosBaseURL : string;
  axiosTimeout : value;
  axiosHeaders : list (string * string)
}.

(** What the constructor can throw: its own [Error('API key is
    required')], or a native error of the template literal. *)
Inductive failure : Type :=
| ApiKeyRequired
| Conversion (e : native_error).

Definition converting {A} (c : outcome native_error A) : outcome failure A :=
  match c with
  | Ok a => Ok a
  | Throw e => Throw (Conversion e)
  end.

(** [constructor(config)]: the configuration handed to [axios.create]
    and the initial state of the instance ([messageId = 1]). *)
Definition construct (config : ValidationCloudConfig)
  : outcome failure (axiosConfig * Api.client) :=
  if negb (JS.toBoolean (apiKey config)) then Throw ApiKeyRequired
  else
    let* base :=
      converting (JS.toString (Api.orElse (baseURL config) (VStr DEFAULT_BASE_URL))) in
    let* key := converting (JS.toString (apiKey config)) in
    let baseUrl := base +:+ "/" +:+ key in
    Ok ({| axiosBaseURL := baseUrl;
           axiosTimeout := Api.orElse (timeout config) (num DEFAULT_TIMEOUT);
           axiosHeaders := [("Content-Type", "application/json")] |},
        {| Api.messageId := 1; Api.sent := [] |}).

End Setup.

(* ===================================================================== *)
(** ** The tool handler of the server ([index.ts]) *)
(* ===================================================================== *)

Module Server.

Inductive ErrorCode : Type :=
| InvalidParams
| MethodNotFound.

(** What the handler of [CallToolRequestSchema] can throw: an [McpError]
    of its own, or whatever the API client threw that is no
    [ValidationCloudError]. *)
Inductive fault : Type :=
| McpError (code : ErrorCode) (message : string)
| Propagated (e : Api.error).

(** What the constructor of [ValidationCloudServer] can throw before the
    MCP server is created: its own [Error] about the environment
    variable, or what the constructor of the API client throws. *)
Inductive startFailure : Type :=
| EnvironmentRequired
| Construction (e : Setup.failure).

(** The first statements of the constructor of [ValidationCloudServer],
    on [process.env.VALIDATION_CLOUD_API_KEY], a string when set:
    [new ValidationCloudAPI({ apiKey })]. *)
Definition initialise (env : option string)
  : outcome startFailure (Setup.axiosConfig * Api.client) :=
  let apiKey := match env with Some key => VStr key | None => VUndefined end in
  if negb (JS.toBoolean apiKey) then Throw EnvironmentRequired
  else
    match Setup.construct {| Setup.apiKey := apiKey; Setup.baseURL := VUndefined;
                             Setup.timeout := VUndefined |} with
    | Ok created => Ok created
    | Throw e => Throw (Construction e)
    end.

(** The result for a caught [ValidationCloudError]. *)
Definition errorResult (message : string) : value :=
  obj [("content",
        VArr [obj [("type", VStr "text");
                   ("text", VStr ("Validation Cloud API error: " +:+ message))]]);
       ("isError", VBool true)].

Section Handler.

(** The state of the API client the server holds. *)
Variable state : Type.

(** [this.validationCloudApi.request({ method, params })]; the handler
    hands over whatever [params || []] is. *)
Variable apiRequest : state -> string -> value -> state * outcome Api.error value.

(** The handler registered for [CallToolRequestSchema], on
    [request.params.name] and [request.params.arguments]. *)
Definition callTool (st : state) (name : string) (arguments : value)
  : state * outcome fault value :=
  if String.eqb name "ethereum_request" then
    if negb (JS.toBoolean arguments)
       || negb (String.eqb (JS.typeof arguments) "object") then
      (st, Throw (McpError InvalidParams "Invalid arguments for ethereum_request"))
    else
      let method := JS.get arguments "method" in
      let params := JS.get arguments "params" in
      match method with
      | VStr m =>
          let '(st', r) := apiRequest st m (Api.orElse params (VArr [])) in
          (st',
           match r with
           | Ok results => Ok (obj [("toolResult", results)])
           | Throw (Api.ValidationCloudError message _ _) => Ok (errorResult message)
           | Throw e => Throw (Propagated e)
           end)
      | _ => (st, Throw (McpError InvalidParams "Method must be a string"))
      end
  else (st, Throw (McpError MethodNotFound "Unknown tool")).

End Handler.

End Server.

(* ===================================================================== *)
(** ** Vocabulary for sequences of requests *)
(* ===================================================================== *)

(** The identifiers of the envelopes an instance has sent, oldest first. *)
Definition sentIds (c : Api.client) : list Z := map Api.id (Api.sent c).

(** An instance built by the constructor and used since: its envelopes
    carry the identifiers 1, 2, 3, ... in order and [messageId] is the
    next one. *)
Definition numbered (c : Api.client) : Prop :=
  sentIds c = seqZ 1 (Z.of_nat (length (Api.sent c))) /\
  Api.messageId c = 1 + Z.of_nat (length (Api.sent c)).

(** Successive calls of [request] on one instance, outcomes dropped. *)
Definition requests
  (transformResponse : string -> value -> outcome native_error value)
  (post : Api.requestBody -> outcome Api.rejection value)
  (nativeMessage : native_error -> string)
  (c : Api.client) (ps : list Api.NodeRequestParams) : Api.client :=
  fold_left (fun c p => fst (Api.request transformResponse post nativeMessage c p)) ps c.

(** Whether a request passes [validateParams]. *)
Definition passesValidation (p : Api.NodeRequestParams) : bool :=
  match Api.validateParams (Api.method p) (Api.params p) with
  | Ok _ => true
  | Throw _ => false
  end.

(** The envelope [request] builds for a request and an identifier. *)
Definition envelope (ident : Z) (p : Api.NodeRequestParams) : Api.requestBody :=
  {| Api.jsonrpc := "2.0"; Api.id := ident; Api.bodyMethod := Api.method p;
     Api.bodyParams := default [] (Api.params p) |}.

(* ===================================================================== *)
(** ** Facts about the string operations *)
(* ===================================================================== *)

Section StringFacts.

Lemma digit_not_whitespace radix c d :
  Str.digit radix c = Some d -> Str.isWhiteSpace c = false.
Proof.
  unfold Str.digit, Str.isWhiteSpace.
  destruct c as [[|] [|] [|] [|] [|] [|] [|] [|]]; intros H;
    try reflexivity; discriminate H.
Qed.

Lemma digit_hex_not_x c d : Str.digit 16 c = Some d -> c <> "x"%char.
Proof. intros H ->. discriminate H. Qed.

(** A string of digits has no white space at either end. *)
Lemma readDigits_trimStart radix s acc n :
  Str.readDigits radix s acc = Some n -> Str.trimStart s = s.
Proof.
  destruct s as [|c r]; [reflexivity|]. cbn.
  destruct (Str.digit radix c) eqn:Hd; [|discriminate].
  intros _. now rewrite (digit_not_whitespace _ _ _ Hd).
Qed.

Lemma readDigits_trimEnd radix s : forall acc n,
  Str.readDigits radix s acc = Some n -> Str.trimEnd s = s.
Proof.
  induction s as [|c r IH]; intros acc n; [reflexivity|]. cbn.
  destruct (Str.digit radix c) eqn:Hd; [|discriminate].
  intros Hr. rewrite (IH _ _ Hr).
  destruct r; [|reflexivity].
  now rewrite (digit_not_whitespace _ _ _ Hd).
Qed.

Lemma digits_trim radix s n : Str.digits radix s = Some n -> Str.trim s = s.
Proof.
  unfold Str.digits, Str.trim. destruct s as [|c r]; [discriminate|].
  intros H. rewrite (readDigits_trimStart _ _ _ _ H).
  exact (readDigits_trimEnd _ _ _ _ H).
Qed.

Lemma prefix_0x s :
  String.prefix "0x" s = true <-> exists r, s = "0x" +:+ r.
Proof.
  split.
  - destruct s as [|c [|c' r]]; cbn [String.prefix]; try discriminate.
    + destruct (ascii_dec "0" c); discriminate.
    + destruct (ascii_dec "0" c) as [<-|]; [|discriminate].
      destruct (ascii_dec "x" c') as [<-|]; [|discriminate].
      intros _. now exists r.
  - intros [r ->]. cbn [String.append String.prefix].
    destruct (ascii_dec "0" "0"); [|congruence].
    destruct (ascii_dec "x" "x"); [|congruence].
    now destruct r.
Qed.

Lemma prefix_0x_false s :
  (forall r, s <> "0x" +:+ r) -> String.prefix "0x" s = false.
Proof.
  intros H. destruct (String.prefix "0x" s) eqn:Hp; [|reflexivity].
  apply prefix_0x in Hp as [r ->]. now destruct (H r).
Qed.

(** Hexadecimal digits contain no ["0x"] for [replace] to remove. *)
Lemma readDigits_replace s : forall acc n,
  Str.readDigits 16 s acc = Some n -> Str.replace "0x" "" s = s.
Proof.
  induction s as [|c r IH]; intros acc n; [reflexivity|].
  intros Hr. cbn [Str.replace].
  rewrite prefix_0x_false.
  - cbn [Str.readDigits] in Hr.
    destruct (Str.digit 16 c) eqn:Hd; [|discriminate].
    now rewrite (IH _ _ Hr).
  - intros r' [= -> ->]. discriminate Hr.
Qed.

Lemma digits_replace s n :
  Str.digits 16 s = Some n -> Str.replace "0x" "" s = s.
Proof.
  unfold Str.digits. destruct s; [discriminate|]. apply readDigits_replace.
Qed.

Lemma digits_nonempty radix s n : Str.digits radix s = Some n -> s <> "".
Proof. now destruct s. Qed.

Lemma digits_hex_not_0x s n : Str.digits 16 s = Some n -> s <> "0x".
Proof. intros H ->. discriminate H. Qed.

(** Reading back the decimal numeral of [n] gives [n]. *)
Lemma readDigits_string_of_uint d : forall acc,
  Str.readDigits 10 (NilEmpty.string_of_uint d) acc
  = Some (DecimalPos.Unsigned.of_lu (Decimal.rev d)
          + acc * 10 ^ DecimalPos.Unsigned.usize d)%N.
Proof.
  induction d; intros acc; cbn [NilEmpty.string_of_uint Str.readDigits];
    [ cbn; f_equal; lia | ..];
    (change (Str.digit 10 _) with (Some 0%N) ||
     change (Str.digit 10 _) with (Some 1%N) ||
     change (Str.digit 10 _) with (Some 2%N) ||
     change (Str.digit 10 _) with (Some 3%N) ||
     change (Str.digit 10 _) with (Some 4%N) ||
     change (Str.digit 10 _) with (Some 5%N) ||
     change (Str.digit 10 _) with (Some 6%N) ||
     change (Str.digit 10 _) with (Some 7%N) ||
     change (Str.digit 10 _) with (Some 8%N) ||
     change (Str.digit 10 _) with (Some 9%N));
    cbv iota; rewrite IHd; f_equal;
    match goal with
    | |- context [Decimal.rev (?digit d)] =>
        change (Decimal.rev (digit d)) with (Decimal.revapp d (digit Decimal.Nil));
        rewrite (DecimalPos.Unsigned.of_lu_revapp d (digit Decimal.Nil))
    end;
    cbn [DecimalPos.Unsigned.of_lu DecimalPos.Unsigned.usize];
    rewrite N.pow_succ_r'; lia.
Qed.

Lemma digits_ofN n : Str.digits 10 (Str.ofN n) = Some n.
Proof.
  unfold Str.ofN, Str.digits.
  assert (Hnil : N.to_uint n <> Decimal.Nil).
  { destruct n; [discriminate|]. apply DecimalPos.Unsigned.to_uint_nonnil. }
  assert (Hs : NilZero.string_of_uint (N.to_uint n)
               = NilEmpty.string_of_uint (N.to_uint n)).
  { destruct (N.to_uint n); [congruence|reflexivity..]. }
  rewrite Hs.
  destruct (NilEmpty.string_of_uint (N.to_uint n)) eqn:Hd.
  - destruct (N.to_uint n); [congruence|discriminate..].
  - rewrite <- Hd, readDigits_string_of_uint.
    rewrite <- DecimalPos.Unsigned.of_uint_alt.
    change (Pos.of_uint (N.to_uint n)) with (N.of_uint (N.to_uint n)).
    rewrite DecimalN.Unsigned.of_to. f_equal. lia.
Qed.

Lemma digit_decimal_no_radix_mark c d :
  Str.digit 10 c = Some d ->
  (Ascii.eqb c "x" || Ascii.eqb c "X" = false) /\
  (Ascii.eqb c "o" || Ascii.eqb c "O" = false) /\
  (Ascii.eqb c "b" || Ascii.eqb c "B" = false).
Proof.
  destruct c as [[|] [|] [|] [|] [|] [|] [|] [|]]; intros H;
    try discriminate H; repeat split.
Qed.

(** The numeral of [n] is a StringIntegerLiteral with value [n]. *)
Lemma stringToBigInt_ofN n : JS.stringToBigInt (Str.ofN n) = Some (Z.of_N n).
Proof.
  pose proof (digits_ofN n) as Hd.
  unfold JS.stringToBigInt. rewrite (digits_trim _ _ _ Hd).
  destruct (Str.ofN n) as [|c r] eqn:Hs; [discriminate|].
  assert (Hc : exists d, Str.digit 10 c = Some d).
  { cbn in Hd. destruct (Str.digit 10 c); [eauto|discriminate]. }
  destruct Hc as [d Hc].
  destruct c as [[|] [|] [|] [|] [|] [|] [|] [|]]; try discriminate Hc;
    try (rewrite Hd; reflexivity).
  (* the numeral starts with the digit zero *)
  destruct r as [|c' r']; [rewrite Hd; reflexivity|].
  assert (Hc' : exists d', Str.digit 10 c' = Some d').
  { cbn in Hd. destruct (Str.digit 10 c'); [eauto|discriminate]. }
  destruct Hc' as [d' Hc'].
  destruct (digit_decimal_no_radix_mark _ _ Hc') as (-> & -> & ->).
  rewrite Hd. reflexivity.
Qed.

End StringFacts.

(* ===================================================================== *)
(** ** The runtime model on known values *)
(* ===================================================================== *)

(** Number::toString on values whose JavaScript rendering is well known:
    fixed notation up to 21 digits, exponent notation beyond, shortest
    digits that read back to the same Number. *)
Lemma Number_toString_samples :
  Num.toString (Num.ofZ 21000) = "21000" /\
  Num.toString (Num.ofZ (-255)) = "-255" /\
  Num.toString (Num.ofRatio 1 10) = "0.1" /\
  Num.toString (SFadd Num.prec Num.emax (Num.ofRatio 1 10) (Num.ofRatio 2 10))
  = "0.30000000000000004" /\
  Num.toString (Num.ofZ (2 ^ 53)) = "9007199254740992" /\
  Num.toString (Num.ofZ 123456789012345678901) = "123456789012345680000" /\
  Num.toString (Num.ofZ (10 ^ 20)) = "100000000000000000000" /\
  Num.toString (Num.ofZ (10 ^ 21)) = "1e+21" /\
  Num.toString (Num.ofZ (2 ^ 70)) = "1.1805916207174113e+21" /\
  Num.toString (Num.ofRatio 1 (10 ^ 6)) = "0.000001" /\
  Num.toString (Num.ofRatio 1 (10 ^ 7)) = "1e-7" /\
  Num.toString (S754_finite false 1 (-1074)) = "5e-324" /\
  Num.toString (S754_finite false (2 ^ 53 - 1) 971) = "1.7976931348623157e+308" /\
  Num.toString Num.NaN = "NaN" /\
  Num.toString (S754_zero true) = "0".
Proof. repeat apply conj; vm_compute; reflexivity. Qed.

(** [parseInt(s, 16)] and [BigInt(s)] on typical texts. *)
Lemma parsing_samples :
  JS.parseInt16 "ff" = Num.ofZ 255 /\
  JS.parseInt16 "0X10" = Num.ofZ 16 /\
  JS.parseInt16 "  -1f rest" = Num.ofZ (-31) /\
  JS.parseInt16 "" = Num.NaN /\
  JS.parseInt16 "latest" = Num.NaN /\
  JS.stringToBigInt "0xff" = Some 255 /\
  JS.stringToBigInt " 42 " = Some 42 /\
  JS.stringToBigInt "-7" = Some (-7) /\
  JS.stringToBigInt "" = Some 0 /\
  JS.stringToBigInt "0x" = None /\
  JS.stringToBigInt "ff" = None /\
  JS.stringToBigInt "1.5" = None.
Proof. repeat apply conj; vm_compute; reflexivity. Qed.

(** The assertions of the repository's [utils.test.ts], evaluated on the
    guarded draft: all of them hold. *)
Lemma utils_tests_on_guarded_draft :
  UtilsGuarded.hexToDecimal (VStr "0x1") = Ok (Num.ofZ 1) /\
  UtilsGuarded.hexToDecimal (VStr "0xa") = Ok (Num.ofZ 10) /\
  UtilsGuarded.hexToDecimal (VStr "0xff") = Ok (Num.ofZ 255) /\
  UtilsGuarded.hexToDecimal (VStr "0x0") = Ok (Num.ofZ 0) /\
  UtilsGuarded.hexToDecimal (VStr "") = Ok (Num.ofZ 0) /\
  UtilsGuarded.hexToDecimal (VStr "0x") = Ok (Num.ofZ 0) /\
  UtilsGuarded.hexToDecimalString (VStr "0x1") = Ok "1" /\
  UtilsGuarded.hexToDecimalString (VStr "0xa") = Ok "10" /\
  UtilsGuarded.hexToDecimalString (VStr "") = Ok "0" /\
  UtilsGuarded.hexToDecimalString (VStr "0x") = Ok "0" /\
  UtilsGuarded.weiToEther (VStr "") = Ok "0" /\
  UtilsGuarded.transformResponse "eth_blockNumber" (VStr "0xa") = Ok (num 10) /\
  UtilsGuarded.transformResponse "eth_getBalance" (VStr "0xde0b6b3a7640000")
  = Ok (obj [("wei", VStr "1000000000000000000"); ("ether", VStr "1")]) /\
  UtilsGuarded.transformResponse "eth_getBlockByNumber"
    (obj [("number", VStr "0xa"); ("gasLimit", VStr "0x1234"); ("gasUsed", VStr "0x1000");
          ("timestamp", VStr "0x60ad0d60"); ("transactions", VArr [])])
  = Ok (obj [("number", num 10); ("gasLimit", num 4660); ("gasUsed", num 4096);
             ("timestamp", num 1621953888); ("transactions", VArr [])]) /\
  UtilsGuarded.transformResponse "eth_getTransactionByHash"
    (obj [("blockNumber", VStr "0xa"); ("transactionIndex", VStr "0x1");
          ("gas", VStr "0x5208"); ("gasPrice", VStr "0x4a817c800");
          ("nonce", VStr "0x0"); ("value", VStr "0xde0b6b3a7640000")])
  = Ok (obj [("blockNumber", num 10); ("transactionIndex", num 1);
             ("gas", num 21000); ("gasPrice", num 20000000000); ("nonce", num 0);
             ("value", obj [("wei", VStr "1000000000000000000"); ("ether", VStr "1")])]) /\
  UtilsGuarded.transformResponse "eth_getBlockByHash"
    (obj [("hash", VStr "0x123"); ("parentHash", VStr "0x456")])
  = Ok (obj [("hash", VStr "0x123"); ("parentHash", VStr "0x456")]).
Proof. repeat apply conj; vm_compute; reflexivity. Qed.

(* ===================================================================== *)
(** ** Exact decimal strings of hexadecimal quantities *)
(* ===================================================================== *)

Section HexToDecimalString.

Lemma append_0x s : "0x" +:+ s = String "0" (String "x" s).
Proof. reflexivity. Qed.

Lemma trimEnd_cons c r : r <> "" -> Str.trimEnd r = r -> Str.trimEnd (String c r) = String c r.
Proof.
  intros Hne Hr. cbn [Str.trimEnd]. rewrite Hr. now destruct r.
Qed.

Lemma ofZ_of_N n : Str.ofZ (Z.of_N n) = Str.ofN n.
Proof. now destruct n. Qed.

Lemma stringToBigInt_hex ds n :
  encodesHex ds n -> JS.stringToBigInt ("0x" +:+ ds) = Some (Z.of_N n).
Proof.
  intros H. unfold JS.stringToBigInt.
  assert (Ht : Str.trim ("0x" +:+ ds) = "0x" +:+ ds).
  { unfold Str.trim. rewrite append_0x. cbn [Str.trimStart].
    change (Str.isWhiteSpace "0") with false. cbv iota.
    pose proof (digits_nonempty _ _ _ H) as Hne.
    assert (He : Str.trimEnd ds = ds).
    { unfold encodesHex, Str.digits in H. destruct ds; [easy|].
      exact (readDigits_trimEnd _ _ _ _ H). }
    rewrite (trimEnd_cons "0" (String "x" ds));
      [reflexivity | discriminate | now apply trimEnd_cons]. }
  rewrite Ht, append_0x. change (Ascii.eqb "x" "x") with true.
  cbn [orb]. unfold encodesHex in H. now rewrite H.
Qed.

Lemma replace_0x_prefix s : Str.replace "0x" "" ("0x" +:+ s) = s.
Proof.
  rewrite append_0x. cbn [Str.replace].
  replace (String.prefix "0x" (String "0" (String "x" s))) with true.
  - reflexivity.
  - symmetry. apply prefix_0x. exists s. now rewrite append_0x.
Qed.

Lemma toBoolean_nonempty s : s <> "" -> JS.toBoolean (VStr s) = true.
Proof. now destruct s. Qed.

Lemma isString_neq s t : s <> t -> JS.isString (VStr s) t = false.
Proof. intros H. cbn. now apply String.eqb_neq. Qed.

Lemma Utils_hexToDecimalString_clean s ds n :
  s <> "" -> Str.replace "0x" "" s = ds -> encodesHex ds n ->
  Utils.hexToDecimalString (VStr s) = Ok (Str.ofN n).
Proof.
  intros Hne Hr H. unfold Utils.hexToDecimalString.
  rewrite (toBoolean_nonempty _ Hne). cbn [negb JS.replaceMethod bind].
  rewrite Hr. cbn [JS.toBigInt]. rewrite (stringToBigInt_hex _ _ H).
  cbn [bind]. now rewrite ofZ_of_N.
Qed.

Lemma UtilsGuarded_hexToDecimalString_clean s ds n :
  s <> "" -> s <> "0x" -> Str.replace "0x" "" s = ds -> encodesHex ds n ->
  UtilsGuarded.hexToDecimalString (VStr s) = Ok (Str.ofN n).
Proof.
  intros Hne Hx Hr H. unfold UtilsGuarded.hexToDecimalString.
  rewrite (toBoolean_nonempty _ Hne), (isString_neq _ _ Hx).
  cbn [negb orb JS.toStringMethod JS.toString bind]. rewrite Hr.
  replace (String.eqb ds "") with false
    by (symmetry; apply String.eqb_neq; exact (digits_nonempty _ _ _ H)).
  cbn [JS.toBigInt]. rewrite (stringToBigInt_hex _ _ H).
  cbn [bind try_catch]. now rewrite ofZ_of_N.
Qed.

End HexToDecimalString.

(** C3. For every non-empty string [ds] of hexadecimal digits encoding
    [n], given with or without the ["0x"] prefix, [hexToDecimalString]
    returns the decimal numeral of [n], whatever the size of [n]; reading
    that numeral back with [BigInt] gives [n]; the 128-bit example of the
    specification evaluates as stated. This holds in [src/utils.ts] and in
    the guarded draft. *)
Theorem hexToDecimalString_exact (ds : string) (n : N) (H : encodesHex ds n) :
  Utils.hexToDecimalString (VStr ds) = Ok (Str.ofN n) /\
  Utils.hexToDecimalString (VStr ("0x" +:+ ds)) = Ok (Str.ofN n) /\
  UtilsGuarded.hexToDecimalString (VStr ds) = Ok (Str.ofN n) /\
  UtilsGuarded.hexToDecimalString (VStr ("0x" +:+ ds)) = Ok (Str.ofN n) /\
  JS.toBigInt (VStr (Str.ofN n)) = Ok (Z.of_N n) /\
  Utils.hexToDecimalString (VStr "0xffffffffffffffffffffffffffffffff")
  = Ok "340282366920938463463374607431768211455" /\
  UtilsGuarded.hexToDecimalString (VStr "0xffffffffffffffffffffffffffffffff")
  = Ok "340282366920938463463374607431768211455".
Proof.
  pose proof (digits_nonempty _ _ _ H) as Hne.
  pose proof (digits_replace _ _ H) as Hr.
  pose proof (replace_0x_prefix ds) as Hp.
  repeat apply conj.
  - now apply Utils_hexToDecimalString_clean with ds.
  - apply Utils_hexToDecimalString_clean with ds; auto;
      rewrite append_0x; discriminate.
  - apply UtilsGuarded_hexToDecimalString_clean with ds; auto.
    exact (digits_hex_not_0x _ _ H).
  - apply UtilsGuarded_hexToDecimalString_clean with ds; auto;
      rewrite append_0x; try discriminate.
    intros [= E]. now apply Hne.
  - cbn [JS.toBigInt]. now rewrite stringToBigInt_ofN.
  - vm_compute. reflexivity.
  - vm_compute. reflexivity.
Qed.

Lemma hexToDecimalString_exact_witness :
  encodesHex "de0b6b3a7640000" 1000000000000000000 /\
  Utils.hexToDecimalString (VStr "0xde0b6b3a7640000") = Ok "1000000000000000000".
Proof.
  split; [reflexivity|].
  exact (proj1 (proj2
    (hexToDecimalString_exact "de0b6b3a7640000" 1000000000000000000 eq_refl))).
Defined.

(* ===================================================================== *)
(** ** The primitive conversions on particular inputs *)
(* ===================================================================== *)

(** C5. [weiToEther] renders one ether as ["1"], a tenth of an ether as
    ["0.1"] and zero as ["0"], in [src/utils.ts] and in the guarded
    draft: the hexadecimal amount is parsed by [BigInt], converted to a
    Number, divided by [1e18] and printed by Number::toString. *)
Theorem weiToEther_examples :
  Utils.weiToEther (VStr "0xde0b6b3a7640000") = Ok "1" /\
  Utils.weiToEther (VStr "0x16345785d8a0000") = Ok "0.1" /\
  Utils.weiToEther (VStr "0x0") = Ok "0" /\
  UtilsGuarded.weiToEther (VStr "0xde0b6b3a7640000") = Ok "1" /\
  UtilsGuarded.weiToEther (VStr "0x16345785d8a0000") = Ok "0.1" /\
  UtilsGuarded.weiToEther (VStr "0x0") = Ok "0".
Proof. repeat apply conj; vm_compute; reflexivity. Qed.

(** C4, on [src/utils.ts]. The conversions of this file are not
    zero-defaulting: on the bare prefix ["0x"] [hexToDecimal] returns NaN
    and the two others throw a SyntaxError; on text that is no
    hexadecimal numeral [hexToDecimal] returns NaN and
    [hexToDecimalString] throws; [weiToEther] throws on a numeral without
    prefix. Only the empty string and [null] give the zero results. *)
Theorem Utils_conversions_not_zero_defaulting :
  Utils.hexToDecimal (VStr "0x") = Ok Num.NaN /\
  Utils.hexToDecimalString (VStr "0x") = Throw SyntaxError /\
  Utils.weiToEther (VStr "0x") = Throw SyntaxError /\
  Utils.hexToDecimal (VStr "latest") = Ok Num.NaN /\
  Utils.hexToDecimalString (VStr "latest") = Throw SyntaxError /\
  Utils.weiToEther (VStr "de0b6b3a7640000") = Throw SyntaxError /\
  Utils.hexToDecimal (VStr "") = Ok (Num.ofZ 0) /\
  Utils.hexToDecimal VNull = Ok (Num.ofZ 0) /\
  Utils.hexToDecimalString (VStr "") = Ok "0" /\
  Utils.hexToDecimalString VNull = Ok "0" /\
  Utils.weiToEther (VStr "") = Ok "0" /\
  Utils.weiToEther VNull = Ok "0".
Proof. repeat apply conj; vm_compute; reflexivity. Qed.

Section GuardedConversions.

(** The guarded [hexToDecimal] always returns a Number that is not NaN:
    the degenerate inputs and every text [parseInt] cannot read give 0. *)
Lemma guarded_hexToDecimal_total v :
  declaredArgument v ->
  exists d, UtilsGuarded.hexToDecimal v = Ok d /\ Num.isNaN d = false /\
    (v = VNull \/ v = VUndefined \/ v = VStr "" \/ v = VStr "0x" -> d = Num.ofZ 0) /\
    (forall s, v = VStr s ->
       JS.parseInt16 (Str.replace "0x" "" s) = Num.NaN -> d = Num.ofZ 0).
Proof.
  intros [-> | [-> | [s ->]]].
  - exists (Num.ofZ 0). repeat apply conj; try reflexivity; auto; discriminate.
  - exists (Num.ofZ 0). repeat apply conj; try reflexivity; auto; discriminate.
  - unfold UtilsGuarded.hexToDecimal.
    destruct (negb (JS.toBoolean (VStr s)) || JS.isString (VStr s) "0x") eqn:Hg.
    + exists (Num.ofZ 0). repeat apply conj; try reflexivity; auto.
    + cbn [JS.toStringMethod JS.toString bind].
      eexists. split; [reflexivity|].
      destruct (JS.parseInt16 (Str.replace "0x" "" s)) eqn:Hp;
        cbn [Num.isNaN]; repeat apply conj; try reflexivity.
      all: try (intros [H | [H | [H | H]]]; try discriminate H;
                injection H as ->; discriminate Hg).
      all: try (intros s' [= <-] Hn; first [discriminate Hn | reflexivity]).
      all: try (intros s' [= <-] Hn; rewrite Hp in Hn; discriminate Hn).
Qed.

(** The guarded string conversions never throw, whatever the argument. *)
Lemma guarded_string_conversions_return v :
  returns (UtilsGuarded.hexToDecimalString v) /\
  returns (UtilsGuarded.weiToEther v).
Proof.
  unfold UtilsGuarded.hexToDecimalString, UtilsGuarded.weiToEther, returns.
  split; destruct (negb (JS.toBoolean v) || _); eauto.
Qed.

(** On the degenerate inputs they give ["0"]. *)
Lemma guarded_string_conversions_degenerate v :
  v = VNull \/ v = VUndefined \/ v = VStr "" \/ v = VStr "0x" ->
  UtilsGuarded.hexToDecimalString v = Ok "0" /\
  UtilsGuarded.weiToEther v = Ok "0".
Proof. intros [-> | [-> | [-> | ->]]]; split; reflexivity. Qed.

(** So they do on every text that [BigInt] cannot parse. *)
Lemma guarded_hexToDecimalString_parse_failure s :
  JS.stringToBigInt ("0x" +:+ Str.replace "0x" "" s) = None ->
  UtilsGuarded.hexToDecimalString (VStr s) = Ok "0".
Proof.
  intros Hp. unfold UtilsGuarded.hexToDecimalString.
  destruct (negb (JS.toBoolean (VStr s)) || _); [reflexivity|].
  cbn [JS.toStringMethod JS.toString bind].
  destruct (String.eqb _ ""); [reflexivity|].
  cbn [JS.toBigInt]. now rewrite Hp.
Qed.

Lemma guarded_weiToEther_parse_failure s :
  JS.stringToBigInt s = None -> UtilsGuarded.weiToEther (VStr s) = Ok "0".
Proof.
  intros Hp. unfold UtilsGuarded.weiToEther.
  destruct (negb (JS.toBoolean (VStr s)) || _); [reflexivity|].
  cbn [JS.toBigInt]. now rewrite Hp.
Qed.

End GuardedConversions.

(* ===================================================================== *)
(** ** Pass-through rules of the normaliser and of the validator *)
(* ===================================================================== *)

Lemma oneOf_false method labels : ~ In method labels -> oneOf method labels = false.
Proof.
  intros H. unfold oneOf. apply not_true_is_false. intros He.
  apply existsb_exists in He as (l & Hin & Heq).
  apply String.eqb_eq in Heq. now subst.
Qed.

Lemma oneOf_sublist method labels sub :
  ~ In method labels -> (forall l, In l sub -> In l labels) -> oneOf method sub = false.
Proof. intros H Hs. apply oneOf_false. intros Hin. exact (H (Hs _ Hin)). Qed.

(** C9. Whatever the method, [transformResponse] returns a falsy result
    as it is, before any rule of the method applies. *)
Theorem transformResponse_falsy_unchanged (method : string) (result : value)
  (H : JS.toBoolean result = false) :
  Utils.transformResponse method result = Ok result /\
  UtilsGuarded.transformResponse method result = Ok result.
Proof.
  unfold Utils.transformResponse, UtilsGuarded.transformResponse.
  now rewrite H.
Qed.

Lemma transformResponse_falsy_unchanged_witness :
  Forall (fun v => JS.toBoolean v = false) [VNull; num 0; VStr ""; VBool false] /\
  Utils.transformResponse "eth_getTransactionByHash" VNull = Ok VNull /\
  Utils.transformResponse "eth_blockNumber" (VStr "") = Ok (VStr "").
Proof.
  split; [repeat constructor|]. split.
  - exact (proj1 (transformResponse_falsy_unchanged "eth_getTransactionByHash" VNull eq_refl)).
  - exact (proj1 (transformResponse_falsy_unchanged "eth_blockNumber" (VStr "") eq_refl)).
Defined.

(** C8. A method outside the three validated ones passes [validateParams]
    with any parameters, absent ones included; for a method outside the
    eight the normaliser knows, [transformResponse] is the identity. *)
Theorem other_methods_pass_through (method : string) :
  (~ In method validatedMethods ->
   forall ps, Api.validateParams method ps = Ok tt) /\
  (~ In method normalisedMethods ->
   forall result,
     Utils.transformResponse method result = Ok result /\
     UtilsGuarded.transformResponse method result = Ok result).
Proof.
  split.
  - intros H ps. unfold Api.validateParams.
    rewrite !(oneOf_sublist method validatedMethods) by (auto; cbn; tauto).
    reflexivity.
  - intros H result.
    unfold Utils.transformResponse, UtilsGuarded.transformResponse.
    rewrite !(oneOf_sublist method normalisedMethods) by (auto; cbn; tauto).
    now destruct (negb (JS.toBoolean result)).
Qed.

Lemma other_methods_pass_through_witness :
  Api.validateParams "net_version" None = Ok tt /\
  Utils.transformResponse "net_version" (VStr "0x1") = Ok (VStr "0x1") /\
  UtilsGuarded.transformResponse "net_version" (VStr "0x1") = Ok (VStr "0x1").
Proof.
  destruct (other_methods_pass_through "net_version") as [Hv Hn].
  split.
  - apply Hv. cbn. intuition discriminate.
  - apply Hn. cbn. intuition discriminate.
Defined.

(* ===================================================================== *)
(** ** Validation and the client *)
(* ===================================================================== *)

Section ClientFacts.

Variable transformResponse : string -> value -> outcome native_error value.
Variable post : Api.requestBody -> outcome Api.rejection value.
Variable nativeMessage : native_error -> string.

Abbreviation request := (Api.request transformResponse post nativeMessage).
Abbreviation requestAt := (Api.requestAt transformResponse post nativeMessage).

(** A request that fails validation throws the validator's error as it
    is, hands nothing to the HTTP client and leaves [messageId] alone. *)
Lemma request_rejected c p message code details :
  Api.validateParams (Api.method p) (Api.params p)
  = Throw (Api.ValidationCloudError message code details) ->
  request c p = (c, Throw (Api.ValidationCloudError message code details)) /\
  forall now log,
    requestAt now log p = (log, Throw (Api.ValidationCloudError message code details)).
Proof.
  intros H. unfold Api.request, Api.requestAt. now rewrite H.
Qed.

Lemma startsWith_0x s :
  Str.startsWith s "0x" = true <-> exists rest, s = "0x" +:+ rest.
Proof. apply prefix_0x. Qed.

(** What [validateParams] decides for [eth_getBalance]. *)
Lemma validate_getBalance ps :
  Api.validateParams "eth_getBalance" ps =
  match ps with
  | Some [a; _] =>
      match a with
      | VStr s =>
          if Str.startsWith s "0x" then Ok tt
          else Throw (Api.invalidParams "Invalid address parameter")
      | _ => Throw (Api.invalidParams "Invalid address parameter")
      end
  | _ => Throw (Api.invalidParams
                  "eth_getBalance requires address and block parameters")
  end.
Proof.
  destruct ps as [[|a [|b [|x l]]]|]; try reflexivity.
  destruct a; try reflexivity.
  unfold Api.validateParams. cbn. now destruct (Str.startsWith s "0x").
Qed.

(** What [validateParams] decides for [eth_getLogs]: the test is
    [typeof params[0] !== 'object']. *)
Lemma validate_getLogs ps :
  Api.validateParams "eth_getLogs" ps =
  match ps with
  | Some [v] =>
      if String.eqb (JS.typeof v) "object" then Ok tt
      else Throw (Api.invalidParams "eth_getLogs requires a filter object parameter")
  | _ => Throw (Api.invalidParams "eth_getLogs requires a filter object parameter")
  end.
Proof.
  destruct ps as [[|a [|b l]]|]; try reflexivity.
  unfold Api.validateParams. cbn. now destruct (String.eqb (JS.typeof a) "object").
Qed.

End ClientFacts.

(** C6. For [eth_getBalance], [request] throws the INVALID_PARAMS error
    with the missing-parameter message when [params] is absent or does not
    have exactly two elements, and with the address message when it has
    two and the first is no string beginning with ["0x"]; in both cases
    nothing has been handed to the HTTP client and the instance is
    unchanged. With two elements, the first a string beginning with
    ["0x"], validation throws nothing. The same holds for the draft whose
    identifier is the clock. *)
Theorem getBalance_validation
  (transformResponse : string -> value -> outcome native_error value)
  (post : Api.requestBody -> outcome Api.rejection value)
  (nativeMessage : native_error -> string)
  (c : Api.client) (now : Z) (log : list Api.requestBody)
  (ps : option (list value)) :
  let p := {| Api.method := "eth_getBalance"; Api.params := ps |} in
  let missing :=
    Api.ValidationCloudError
      "eth_getBalance requires address and block parameters"
      (num Api.EthereumErrorCode.INVALID_PARAMS) VUndefined in
  let address :=
    Api.ValidationCloudError "Invalid address parameter"
      (num Api.EthereumErrorCode.INVALID_PARAMS) VUndefined in
  (ps = None \/ (exists l, ps = Some l /\ length l <> 2%nat) ->
   Api.request transformResponse post nativeMessage c p = (c, Throw missing) /\
   Api.requestAt transformResponse post nativeMessage now log p = (log, Throw missing)) /\
  (forall a b, ps = Some [a; b] -> (forall rest, a <> VStr ("0x" +:+ rest)) ->
   Api.request transformResponse post nativeMessage c p = (c, Throw address) /\
   Api.requestAt transformResponse post nativeMessage now log p = (log, Throw address)) /\
  (forall rest b, ps = Some [VStr ("0x" +:+ rest); b] ->
   Api.validateParams "eth_getBalance" ps = Ok tt).
Proof.
  intros p missing address. repeat apply conj.
  - intros H.
    assert (Hv : Api.validateParams (Api.method p) (Api.params p) = Throw missing).
    { cbn [p Api.method Api.params]. rewrite validate_getBalance.
      destruct H as [-> | (l & -> & Hl)]; [reflexivity|].
      destruct l as [|a [|b [|x l]]]; try reflexivity. now destruct Hl. }
    destruct (request_rejected transformResponse post nativeMessage c p _ _ _ Hv)
      as [-> Hat].
    now rewrite Hat.
  - intros a b -> Ha.
    assert (Hv : Api.validateParams (Api.method p) (Api.params p) = Throw address).
    { cbn [p Api.method Api.params]. rewrite validate_getBalance.
      destruct a; try reflexivity.
      destruct (Str.startsWith s "0x") eqn:Hs; [|reflexivity].
      apply startsWith_0x in Hs as [rest ->]. now destruct (Ha rest). }
    destruct (request_rejected transformResponse post nativeMessage c p _ _ _ Hv)
      as [-> Hat].
    now rewrite Hat.
  - intros rest b ->. rewrite validate_getBalance.
    replace (Str.startsWith ("0x" +:+ rest) "0x") with true; [reflexivity|].
    symmetry. apply startsWith_0x. now exists rest.
Qed.

Lemma getBalance_validation_witness :
  let post := fun _ : Api.requestBody => Ok (obj [("result", VStr "0x0")]) in
  let c := {| Api.messageId := 1; Api.sent := [] |} in
  Api.request Utils.transformResponse post (fun _ => "")
    c {| Api.method := "eth_getBalance";
         Api.params := Some [VStr "0x742d35Cc6634C0532925a3b844Bc454e4438f44e"] |}
  = (c, Throw (Api.ValidationCloudError
                 "eth_getBalance requires address and block parameters"
                 (num (-32602)) VUndefined)) /\
  Api.request Utils.transformResponse post (fun _ => "")
    c {| Api.method := "eth_getBalance";
         Api.params := Some [VStr "invalid-address"; VStr "latest"] |}
  = (c, Throw (Api.ValidationCloudError "Invalid address parameter"
                 (num (-32602)) VUndefined)) /\
  Api.validateParams "eth_getBalance"
    (Some [VStr "0x742d35Cc6634C0532925a3b844Bc454e4438f44e"; VStr "latest"]) = Ok tt.
Proof.
  intros post c. repeat apply conj.
  - refine (proj1 (proj1 (getBalance_validation Utils.transformResponse post
                            (fun _ => "") c 0 [] _) _)).
    right. eexists. split; [reflexivity|]. cbn. lia.
  - refine (proj1 (proj1 (proj2 (getBalance_validation Utils.transformResponse post
                                   (fun _ => "") c 0 [] _)) _ _ eq_refl _)).
    intros rest. rewrite append_0x. discriminate.
  - exact (proj2 (proj2 (getBalance_validation Utils.transformResponse post
                           (fun _ => "") c 0 [] _))
             "742d35Cc6634C0532925a3b844Bc454e4438f44e" (VStr "latest") eq_refl).
Defined.

(** C7, on every draft of [api.ts]. For [eth_getLogs] a single [null]
    and a single array pass [validateParams], because the test is
    [typeof params[0] !== 'object']; the request with [null] goes out to
    the HTTP client. A single string is rejected with the filter-object
    error. *)
Theorem getLogs_accepts_null_and_array
  (transformResponse : string -> value -> outcome native_error value)
  (post : Api.requestBody -> outcome Api.rejection value)
  (nativeMessage : native_error -> string) (c : Api.client) :
  Api.validateParams "eth_getLogs" (Some [VNull]) = Ok tt /\
  Api.validateParams "eth_getLogs" (Some [VArr []]) = Ok tt /\
  Api.sent (fst (Api.request transformResponse post nativeMessage c
                   {| Api.method := "eth_getLogs"; Api.params := Some [VNull] |}))
  = (Api.sent c ++
     [{| Api.jsonrpc := "2.0"; Api.id := Api.messageId c;
         Api.bodyMethod := "eth_getLogs"; Api.bodyParams := [VNull] |}])%list /\
  Api.validateParams "eth_getLogs" (Some [VStr "invalid-filter"])
  = Throw (Api.ValidationCloudError
             "eth_getLogs requires a filter object parameter"
             (num Api.EthereumErrorCode.INVALID_PARAMS) VUndefined).
Proof. repeat apply conj; reflexivity. Qed.

(** C10. When validation passes and the HTTP call resolves with a body
    that has an [error] entry and no [result] entry, [request] returns
    that body as it is; the normaliser plays no part, whatever it is. The
    envelope has gone out and [messageId] has advanced. *)
Theorem rpc_error_body_returned
  (transformResponse : string -> value -> outcome native_error value)
  (post : Api.requestBody -> outcome Api.rejection value)
  (nativeMessage : native_error -> string)
  (c : Api.client) (now : Z) (log : list Api.requestBody)
  (p : Api.NodeRequestParams) (body : gmap string value) (e : value)
  (Hvalid : Api.validateParams (Api.method p) (Api.params p) = Ok tt)
  (Hpost : forall ident,
      post {| Api.jsonrpc := "2.0"; Api.id := ident;
              Api.bodyMethod := Api.method p;
              Api.bodyParams := default [] (Api.params p) |} = Ok (VObj body))
  (Herror : body !! "error" = Some e)
  (Hresult : body !! "result" = None) :
  Api.request transformResponse post nativeMessage c p
  = ({| Api.messageId := Api.messageId c + 1;
        Api.sent := (Api.sent c ++
                     [{| Api.jsonrpc := "2.0"; Api.id := Api.messageId c;
                         Api.bodyMethod := Api.method p;
                         Api.bodyParams := default [] (Api.params p) |}])%list |},
     Ok (VObj body)) /\
  snd (Api.requestAt transformResponse post nativeMessage now log p) = Ok (VObj body).
Proof.
  unfold Api.request, Api.requestAt, Api.send. rewrite Hvalid, !Hpost.
  unfold Api.normalise, JS.get. cbn [JS.ownProps]. rewrite Hresult.
  split; reflexivity.
Qed.

Lemma rpc_error_body_returned_witness :
  let body : gmap string value :=
    list_to_map
      [("jsonrpc", VStr "2.0"); ("id", num 1);
       ("error", obj [("code", num (-32000)); ("message", VStr "execution reverted")])] in
  let c := {| Api.messageId := 1; Api.sent := [] |} in
  fst (Api.request (fun _ _ => Throw TypeError) (fun _ => Ok (VObj body)) (fun _ => "")
         c {| Api.method := "eth_call"; Api.params := None |})
  = {| Api.messageId := 2;
       Api.sent := [{| Api.jsonrpc := "2.0"; Api.id := 1;
                       Api.bodyMethod := "eth_call"; Api.bodyParams := [] |}] |} /\
  snd (Api.request (fun _ _ => Throw TypeError) (fun _ => Ok (VObj body)) (fun _ => "")
         c {| Api.method := "eth_call"; Api.params := None |})
  = Ok (VObj body).
Proof.
  intros body c.
  pose proof (rpc_error_body_returned
                (fun _ _ => Throw TypeError) (fun _ => Ok (VObj body)) (fun _ => "")
                c 0 [] {| Api.method := "eth_call"; Api.params := None |} body
                (obj [("code", num (-32000)); ("message", VStr "execution reverted")])
                eq_refl (fun _ => eq_refl) eq_refl eq_refl) as [H _].
  rewrite H. split; reflexivity.
Defined.

(* ===================================================================== *)
(** ** The transaction transform follows its policy *)
(* ===================================================================== *)

(** Reading a property of an object built by successive definitions. *)
Ltac lookup_defined :=
  repeat first
    [ rewrite lookup_insert_eq
    | rewrite lookup_insert_ne by (discriminate || congruence) ].

Section TransactionFacts.

Variable hexToDecimal : value -> outcome native_error Num.number.
Variable hexToDecimalString : value -> outcome native_error string.
Variable weiToEther : value -> outcome native_error string.

Abbreviation transformTx :=
  (transformTransaction hexToDecimal hexToDecimalString weiToEther).

Lemma convertOrNull_spec v :
  match convertOrNull hexToDecimal v with
  | Ok r =>
      if JS.toBoolean v then exists d, hexToDecimal v = Ok d /\ r = VNum d
      else r = VNull
  | Throw e => JS.toBoolean v = true /\ hexToDecimal v = Throw e
  end.
Proof.
  unfold convertOrNull. destruct (JS.toBoolean v); [|reflexivity].
  unfold omap. destruct (hexToDecimal v); cbn [bind]; eauto.
Qed.

Lemma spreadConverted_spec k v o :
  match spreadConverted hexToDecimal k v o with
  | Ok o' =>
      if JS.toBoolean v
      then exists d, hexToDecimal v = Ok d /\ o' = <[k := VNum d]> o
      else o' = o
  | Throw e => JS.toBoolean v = true /\ hexToDecimal v = Throw e
  end.
Proof.
  unfold spreadConverted. destruct (JS.toBoolean v); [|reflexivity].
  destruct (hexToDecimal v); cbn [bind]; eauto.
Qed.

Lemma weiAndEther_spec v :
  match weiAndEther hexToDecimalString weiToEther v with
  | Ok r =>
      exists wei ether,
        hexToDecimalString v = Ok wei /\ weiToEther v = Ok ether /\
        r = obj [("wei", VStr wei); ("ether", VStr ether)]
  | Throw e => hexToDecimalString v = Throw e \/ weiToEther v = Throw e
  end.
Proof.
  unfold weiAndEther.
  destruct (hexToDecimalString v) as [w|]; cbn [bind]; [|now left].
  destruct (weiToEther v) as [e|]; cbn [bind]; [|now right].
  exists w, e. repeat apply conj; reflexivity.
Qed.

(** After a conditional spread, every other property is as before and
    the property itself is converted or as before. *)
Lemma spreadConverted_lookup k v o o' :
  spreadConverted hexToDecimal k v o = Ok o' ->
  (forall k', k' <> k -> o' !! k' = o !! k') /\
  (if JS.toBoolean v then converted hexToDecimal v (o' !! k) else o' !! k = o !! k).
Proof.
  intros H. pose proof (spreadConverted_spec k v o) as Hs. rewrite H in Hs.
  destruct (JS.toBoolean v).
  - destruct Hs as (d & Hd & ->). split.
    + intros k' Hk. now rewrite lookup_insert_ne.
    + exists d. now rewrite lookup_insert_eq.
  - now subst.
Qed.

(** The result of the transform on any value: a value that is not an
    object comes back as it is; an object gives an object that follows
    the policy; the transform throws only what one of the conversions
    it applies throws. *)
Lemma transformTransaction_spec tx :
  match transformTx tx with
  | Ok r =>
      if isObject tx
      then exists out, r = VObj out /\
             transactionPolicy hexToDecimal hexToDecimalString weiToEther tx out
      else r = tx
  | Throw e =>
      isObject tx = true /\
      conversionThrows hexToDecimal hexToDecimalString weiToEther tx e
  end.
Proof.
  unfold transformTransaction, isObject.
  destruct (JS.toBoolean tx); [|reflexivity].
  destruct (String.eqb (JS.typeof tx) "object"); [|reflexivity].
  cbn [negb orb andb].
  pose proof (convertOrNull_spec (JS.get tx "blockNumber")) as H1.
  destruct (convertOrNull hexToDecimal (JS.get tx "blockNumber")) as [v1|e]; cbn [bind];
    [|split; [reflexivity|left; exists "blockNumber"; cbn; tauto]].
  pose proof (convertOrNull_spec (JS.get tx "transactionIndex")) as H2.
  destruct (convertOrNull hexToDecimal (JS.get tx "transactionIndex")) as [v2|e]; cbn [bind];
    [|split; [reflexivity|left; exists "transactionIndex"; cbn; tauto]].
  destruct (hexToDecimal (JS.get tx "gas")) as [v3|e] eqn:H3; cbn [bind];
    [|split; [reflexivity|right; left; exists "gas"; cbn; tauto]].
  pose proof (convertOrNull_spec (JS.get tx "gasPrice")) as H4.
  destruct (convertOrNull hexToDecimal (JS.get tx "gasPrice")) as [v4|e]; cbn [bind];
    [|split; [reflexivity|left; exists "gasPrice"; cbn; tauto]].
  destruct (hexToDecimal (JS.get tx "nonce")) as [v5|e] eqn:H5; cbn [bind];
    [|split; [reflexivity|right; left; exists "nonce"; cbn; tauto]].
  pose proof (weiAndEther_spec (JS.get tx "value")) as H6.
  destruct (weiAndEther hexToDecimalString weiToEther (JS.get tx "value")) as [v6|e];
    cbn [bind]; [|split; [reflexivity|right; right; exact H6]].
  destruct (spreadConverted hexToDecimal "gasUsed" _ _) as [o7|e] eqn:H7; cbn [bind].
  2:{ pose proof (spreadConverted_spec "gasUsed" (JS.get tx "gasUsed")) as Hs.
      specialize (Hs (<["value":=v6]> (<["nonce":=VNum v5]> (<["gasPrice":=v4]>
                 (<["gas":=VNum v3]> (<["transactionIndex":=v2]>
                 (<["blockNumber":=v1]> (JS.ownProps tx)))))))).
      rewrite H7 in Hs.
      split; [reflexivity|left; exists "gasUsed"; cbn; tauto]. }
  destruct (spreadConverted hexToDecimal "cumulativeGasUsed" _ _) as [o8|e] eqn:H8;
    cbn [bind].
  2:{ pose proof (spreadConverted_spec "cumulativeGasUsed"
                    (JS.get tx "cumulativeGasUsed") o7) as Hs.
      rewrite H8 in Hs.
      split; [reflexivity|left; exists "cumulativeGasUsed"; cbn; tauto]. }
  destruct (spreadConverted hexToDecimal "effectiveGasPrice" _ _) as [o9|e] eqn:H9;
    cbn [bind].
  2:{ pose proof (spreadConverted_spec "effectiveGasPrice"
                    (JS.get tx "effectiveGasPrice") o8) as Hs.
      rewrite H9 in Hs.
      split; [reflexivity|left; exists "effectiveGasPrice"; cbn; tauto]. }
  exists o9. split; [reflexivity|].
  apply spreadConverted_lookup in H7 as [H7o H7k].
  apply spreadConverted_lookup in H8 as [H8o H8k].
  apply spreadConverted_lookup in H9 as [H9o H9k].
  split.
  - (* converted or null *)
    intros k [<- | [<- | [<- | []]]];
      rewrite H9o, H8o, H7o by discriminate; lookup_defined.
    + revert H1. destruct (JS.toBoolean (JS.get tx "blockNumber"));
        [intros (d & Hd & ->); now exists d | now intros ->].
    + revert H2. destruct (JS.toBoolean (JS.get tx "transactionIndex"));
        [intros (d & Hd & ->); now exists d | now intros ->].
    + revert H4. destruct (JS.toBoolean (JS.get tx "gasPrice"));
        [intros (d & Hd & ->); now exists d | now intros ->].
  - (* always converted *)
    intros k [<- | [<- | []]];
      rewrite H9o, H8o, H7o by discriminate; lookup_defined; eexists; eauto.
  - (* value *)
    destruct H6 as (w & e & Hw & He & ->). exists w, e. repeat split; auto.
    rewrite H9o, H8o, H7o by discriminate. now lookup_defined.
  - (* converted when truthy *)
    intros k [<- | [<- | [<- | []]]].
    + rewrite H9o, H8o by discriminate. revert H7k.
      destruct (JS.toBoolean (JS.get tx "gasUsed")); [tauto|].
      intros ->. now lookup_defined.
    + rewrite H9o by discriminate. revert H8k.
      destruct (JS.toBoolean (JS.get tx "cumulativeGasUsed")); [tauto|].
      intros ->. rewrite H7o by discriminate. now lookup_defined.
    + revert H9k.
      destruct (JS.toBoolean (JS.get tx "effectiveGasPrice")); [tauto|].
      intros ->. rewrite H8o, H7o by discriminate. now lookup_defined.
  - (* everything else *)
    intros k Hk. cbn in Hk.
    rewrite H9o, H8o, H7o by (intros E; subst; intuition).
    rewrite !lookup_insert_ne by (intros E; subst; intuition). reflexivity.
Qed.

End TransactionFacts.

(** For the two transaction methods the normaliser is the transaction
    transform, on falsy results too. *)
Lemma transactionMethod_rule tx :
  (Utils.transformResponse "eth_getTransactionByHash" tx = Utils.transformTransaction tx /\
   Utils.transformResponse "eth_getTransactionReceipt" tx = Utils.transformTransaction tx) /\
  (UtilsGuarded.transformResponse "eth_getTransactionByHash" tx
   = UtilsGuarded.transformTransaction tx /\
   UtilsGuarded.transformResponse "eth_getTransactionReceipt" tx
   = UtilsGuarded.transformTransaction tx).
Proof.
  unfold Utils.transformResponse, UtilsGuarded.transformResponse,
    Utils.transformTransaction, UtilsGuarded.transformTransaction, transformTransaction.
  destruct (JS.toBoolean tx); repeat apply conj; reflexivity.
Qed.

(** C1, as amended. In [src/utils.ts] and in the guarded draft alike: a
    value that is not an object (a falsy value or one whose [typeof] is
    not ['object']) is returned as it is; for an object the transform
    returns an object in which [blockNumber], [transactionIndex] and
    [gasPrice] are the [hexToDecimal] conversion of a truthy source and
    [null] otherwise, [gas] and [nonce] are the conversion of the source,
    [value] is the pair of [hexToDecimalString] and [weiToEther] of the
    source, [gasUsed], [cumulativeGasUsed] and [effectiveGasPrice] are the
    conversion of a truthy source and otherwise as in the source (absent
    when absent there, and with the falsy value of the source when the
    source has one), and every other property is as in the source; the
    transform throws only what one of these conversions throws. The
    transaction with null fields of the specification is transformed as
    stated there, and for [eth_getTransactionByHash] and
    [eth_getTransactionReceipt] the normaliser is this transform. *)
Theorem transformTransaction_policy (tx : value) :
  match Utils.transformTransaction tx with
  | Ok r =>
      if isObject tx
      then exists out, r = VObj out /\
             transactionPolicy
               Utils.hexToDecimal Utils.hexToDecimalString Utils.weiToEther tx out
      else r = tx
  | Throw e =>
      isObject tx = true /\
      conversionThrows Utils.hexToDecimal Utils.hexToDecimalString Utils.weiToEther tx e
  end /\
  match UtilsGuarded.transformTransaction tx with
  | Ok r =>
      if isObject tx
      then exists out, r = VObj out /\
             transactionPolicy
               UtilsGuarded.hexToDecimal UtilsGuarded.hexToDecimalString
               UtilsGuarded.weiToEther tx out
      else r = tx
  | Throw e =>
      isObject tx = true /\
      conversionThrows
        UtilsGuarded.hexToDecimal UtilsGuarded.hexToDecimalString
        UtilsGuarded.weiToEther tx e
  end /\
  Utils.transformTransaction
    (obj [("blockNumber", VNull); ("transactionIndex", VNull); ("gasPrice", VNull);
          ("gas", VStr "0x5208"); ("nonce", VStr "0x0"); ("value", VStr "0x0")])
  = Ok (obj [("blockNumber", VNull); ("transactionIndex", VNull); ("gasPrice", VNull);
             ("gas", num 21000); ("nonce", num 0);
             ("value", obj [("wei", VStr "0"); ("ether", VStr "0")])]) /\
  UtilsGuarded.transformTransaction
    (obj [("blockNumber", VNull); ("transactionIndex", VNull); ("gasPrice", VNull);
          ("gas", VStr "0x5208"); ("nonce", VStr "0x0"); ("value", VStr "0x0")])
  = Ok (obj [("blockNumber", VNull); ("transactionIndex", VNull); ("gasPrice", VNull);
             ("gas", num 21000); ("nonce", num 0);
             ("value", obj [("wei", VStr "0"); ("ether", VStr "0")])]) /\
  Utils.transformResponse "eth_getTransactionByHash" tx = Utils.transformTransaction tx /\
  Utils.transformResponse "eth_getTransactionReceipt" tx = Utils.transformTransaction tx /\
  UtilsGuarded.transformResponse "eth_getTransactionByHash" tx
  = UtilsGuarded.transformTransaction tx /\
  UtilsGuarded.transformResponse "eth_getTransactionReceipt" tx
  = UtilsGuarded.transformTransaction tx.
Proof.
  repeat apply conj.
  - apply transformTransaction_spec.
  - apply transformTransaction_spec.
  - vm_compute. reflexivity.
  - vm_compute. reflexivity.
  - apply transactionMethod_rule.
  - apply transactionMethod_rule.
  - apply transactionMethod_rule.
  - apply transactionMethod_rule.
Qed.

(** C1 as the specification words it fails: a receipt whose [gasUsed] is
    [null] keeps that property, with its [null], in the output; the
    property is not omitted. *)
Lemma transformTransaction_keeps_falsy_optional :
  ~ (forall tx out,
       isObject tx = true ->
       Utils.transformTransaction tx = Ok (VObj out) ->
       forall k, In k optionalFields ->
         JS.toBoolean (JS.get tx k) = false -> out !! k = None) /\
  Utils.transformTransaction
    (obj [("gas", VStr "0x5208"); ("nonce", VStr "0x0"); ("value", VStr "0x0");
          ("gasUsed", VNull)])
  = Ok (obj [("blockNumber", VNull); ("transactionIndex", VNull); ("gasPrice", VNull);
             ("gas", num 21000); ("nonce", num 0);
             ("value", obj [("wei", VStr "0"); ("ether", VStr "0")]);
             ("gasUsed", VNull)]) /\
  UtilsGuarded.transformTransaction
    (obj [("gas", VStr "0x5208"); ("nonce", VStr "0x0"); ("value", VStr "0x0");
          ("gasUsed", VNull)])
  = Ok (obj [("blockNumber", VNull); ("transactionIndex", VNull); ("gasPrice", VNull);
             ("gas", num 21000); ("nonce", num 0);
             ("value", obj [("wei", VStr "0"); ("ether", VStr "0")]);
             ("gasUsed", VNull)]).
Proof.
  repeat apply conj.
  - intros H.
    pose (tx := obj [("gas", VStr "0x5208"); ("nonce", VStr "0x0");
                     ("value", VStr "0x0"); ("gasUsed", VNull)]).
    destruct (Utils.transformTransaction tx) as [[| | | | | |out]|] eqn:Ht;
      try (vm_compute in Ht; discriminate Ht).
    specialize (H tx out eq_refl Ht "gasUsed" ltac:(cbn; tauto) eq_refl).
    vm_compute in Ht. injection Ht as <-. vm_compute in H. discriminate H.
  - vm_compute. reflexivity.
  - vm_compute. reflexivity.
Qed.

(** With fields of the declared type the guarded transform returns. *)
Lemma guarded_transformTransaction_returns tx :
  (forall k, In k (nullableFields ++ plainFields ++ optionalFields)%list ->
             declaredArgument (JS.get tx k)) ->
  returns (UtilsGuarded.transformTransaction tx).
Proof.
  intros Hd. unfold returns.
  pose proof (transformTransaction_spec
                UtilsGuarded.hexToDecimal UtilsGuarded.hexToDecimalString
                UtilsGuarded.weiToEther tx) as Hs.
  fold UtilsGuarded.transformTransaction in Hs.
  destruct (UtilsGuarded.transformTransaction tx) as [r|e]; [eauto|].
  exfalso. destruct Hs as [_ [(k & Hk & _ & He) | [(k & Hk & He) | [He | He]]]].
  - destruct (guarded_hexToDecimal_total (JS.get tx k)) as (d & Hr & _).
    + apply Hd. cbn in Hk |- *. tauto.
    + congruence.
  - destruct (guarded_hexToDecimal_total (JS.get tx k)) as (d & Hr & _).
    + apply Hd. cbn in Hk |- *. tauto.
    + congruence.
  - destruct (guarded_string_conversions_return (JS.get tx "value")) as [[w Hw] _].
    congruence.
  - destruct (guarded_string_conversions_return (JS.get tx "value")) as [_ [w Hw]].
    congruence.
Qed.

(* ===================================================================== *)
(** ** The rule for block results *)
(* ===================================================================== *)

(** C2, on [src/utils.ts]. The block rule of this file reads [number],
    [gasLimit], [gasUsed], [timestamp] and [transactions] without testing
    them: a block without [transactions] (the block of the repository's
    own pass-through test) makes [transformResponse] throw a TypeError,
    and absent numeric fields are added with the value 0. The block of
    the specification, which has all five, is normalised as stated. *)
Theorem Utils_block_rule_unguarded :
  Utils.transformResponse "eth_getBlockByHash"
    (obj [("hash", VStr "0x123"); ("parentHash", VStr "0x456")])
  = Throw TypeError /\
  Utils.transformResponse "eth_getBlockByNumber"
    (obj [("number", VStr "0xa"); ("transactions", VArr [])])
  = Ok (obj [("number", num 10); ("gasLimit", num 0); ("gasUsed", num 0);
             ("timestamp", num 0); ("transactions", VArr [])]) /\
  Utils.transformResponse "eth_getBlockByNumber"
    (obj [("number", VStr "0xa"); ("gasLimit", VStr "0x1234"); ("gasUsed", VStr "0x1000");
          ("timestamp", VStr "0x60ad0d60"); ("transactions", VArr [])])
  = Ok (obj [("number", num 10); ("gasLimit", num 4660); ("gasUsed", num 4096);
             ("timestamp", num 1621953888); ("transactions", VArr [])]).
Proof. repeat apply conj; vm_compute; reflexivity. Qed.

Section GuardedBlocks.

Lemma mapM_Ok {A B} (f : A -> outcome native_error B) l l' :
  mapM f l = Ok l' -> Forall2 (fun x y => f x = Ok y) l l'.
Proof.
  revert l'. induction l as [|x r IH]; intros l'; cbn [mapM].
  - intros [= <-]. constructor.
  - destruct (f x) as [y|] eqn:Hx; cbn [bind]; [|discriminate].
    destruct (mapM f r) as [ys|]; cbn [bind]; [|discriminate].
    intros [= <-]. constructor; auto.
Qed.

Lemma mapM_Throw {A B} (f : A -> outcome native_error B) l e :
  mapM f l = Throw e -> exists x, In x l /\ f x = Throw e.
Proof.
  induction l as [|x r IH]; cbn [mapM]; [discriminate|].
  destruct (f x) as [y|e'] eqn:Hx; cbn [bind].
  - destruct (mapM f r) as [ys|e']; cbn [bind]; [discriminate|].
    intros [= ->]. destruct (IH eq_refl) as (x' & Hin & Hx'). exists x'. cbn. tauto.
  - intros [= ->]. exists x. cbn. tauto.
Qed.

Abbreviation guardedElement :=
  (transformElement UtilsGuarded.hexToDecimal UtilsGuarded.hexToDecimalString
     UtilsGuarded.weiToEther).

Lemma spreadTransactions_lookup v o o' :
  UtilsGuarded.spreadTransactions v o = Ok o' ->
  (forall k, k <> "transactions" -> o' !! k = o !! k) /\
  match v with
  | VArr txs =>
      exists txs', o' !! "transactions" = Some (VArr txs') /\
                   Forall2 (fun tx tx' => guardedElement tx = Ok tx') txs txs'
  | _ => if JS.toBoolean v then o' !! "transactions" = Some v
         else o' !! "transactions" = o !! "transactions"
  end.
Proof.
  unfold UtilsGuarded.spreadTransactions.
  destruct v; cbn [JS.toBoolean];
    try (intros [= <-]; split; [reflexivity|reflexivity]).
  - destruct b; intros [= <-]; split; try reflexivity.
    + intros k Hk. now rewrite lookup_insert_ne.
    + cbn [bind]. now rewrite lookup_insert_eq.
  - destruct (Num.toBoolean x); intros [= <-]; split; try reflexivity.
    + intros k Hk. now rewrite lookup_insert_ne.
    + now rewrite lookup_insert_eq.
  - destruct (negb (String.eqb s "")); intros [= <-]; split; try reflexivity.
    + intros k Hk. now rewrite lookup_insert_ne.
    + now rewrite lookup_insert_eq.
  - unfold omap. destruct (mapM guardedElement items) as [txs'|] eqn:Hm;
      cbn [bind]; [|discriminate].
    intros [= <-]. split.
    + intros k Hk. now rewrite lookup_insert_ne.
    + exists txs'. rewrite lookup_insert_eq. split; [reflexivity|].
      now apply mapM_Ok.
  - intros [= <-]. split.
    + intros k Hk. now rewrite lookup_insert_ne.
    + now rewrite lookup_insert_eq.
Qed.

Lemma spreadTransactions_Throw v o e :
  UtilsGuarded.spreadTransactions v o = Throw e ->
  exists txs tx, v = VArr txs /\ In tx txs /\ guardedElement tx = Throw e.
Proof.
  unfold UtilsGuarded.spreadTransactions.
  destruct (JS.toBoolean v); [|discriminate].
  destruct v; cbn [bind]; try discriminate.
  unfold omap. destruct (mapM guardedElement items) as [|e'] eqn:Hm;
    cbn [bind]; [discriminate|].
  intros [= ->]. apply mapM_Throw in Hm as (tx & Hin & Htx). eauto.
Qed.

Lemma get_truthy_lookup block k :
  JS.toBoolean (JS.get block k) = true ->
  JS.ownProps block !! k = Some (JS.get block k).
Proof.
  unfold JS.get. destruct block; try discriminate;
    destruct (_ !! k); cbn; (reflexivity || discriminate).
Qed.

(** The guarded draft follows the block rule of the specification: the
    four numeric fields are converted when truthy and otherwise as in
    the source, the elements of a [transactions] array go through the
    transaction transform when [typeof] says ['object'], every other
    property is as in the source; a result that is not an object comes
    back as it is; the rule throws only what a conversion throws. *)
Lemma guarded_block_rule method block :
  In method ["eth_getBlockByNumber"; "eth_getBlockByHash"] ->
  match UtilsGuarded.transformResponse method block with
  | Ok r =>
      if isObject block
      then exists out, r = VObj out /\
             blockPolicy
               UtilsGuarded.hexToDecimal UtilsGuarded.hexToDecimalString
               UtilsGuarded.weiToEther block out
      else r = block
  | Throw e =>
      isObject block = true /\
      ((exists k, In k blockFields /\ JS.toBoolean (JS.get block k) = true /\
                  UtilsGuarded.hexToDecimal (JS.get block k) = Throw e) \/
       (exists txs tx, JS.get block "transactions" = VArr txs /\ In tx txs /\
                       guardedElement tx = Throw e))
  end.
Proof.
  intros Hm. unfold UtilsGuarded.transformResponse, isObject.
  destruct (JS.toBoolean block); [|reflexivity]. cbn [negb andb].
  assert (Hsw : oneOf method ["eth_blockNumber"; "eth_gasPrice"; "eth_estimateGas"] = false
                /\ oneOf method ["eth_getBalance"] = false
                /\ oneOf method ["eth_getBlockByNumber"; "eth_getBlockByHash"] = true).
  { destruct Hm as [<- | [<- | []]]; repeat split. }
  destruct Hsw as (-> & -> & ->).
  destruct (String.eqb (JS.typeof block) "object"); [|reflexivity].
  set (hd := UtilsGuarded.hexToDecimal).
  destruct (spreadConverted hd "number" _ _) as [o1|e] eqn:H1; cbn [bind].
  2:{ pose proof (spreadConverted_spec hd "number" (JS.get block "number")
                    (JS.ownProps block)) as Hs.
      rewrite H1 in Hs. split; [reflexivity|left; exists "number"; cbn; tauto]. }
  destruct (spreadConverted hd "gasLimit" _ _) as [o2|e] eqn:H2; cbn [bind].
  2:{ pose proof (spreadConverted_spec hd "gasLimit" (JS.get block "gasLimit") o1) as Hs.
      rewrite H2 in Hs. split; [reflexivity|left; exists "gasLimit"; cbn; tauto]. }
  destruct (spreadConverted hd "gasUsed" _ _) as [o3|e] eqn:H3; cbn [bind].
  2:{ pose proof (spreadConverted_spec hd "gasUsed" (JS.get block "gasUsed") o2) as Hs.
      rewrite H3 in Hs. split; [reflexivity|left; exists "gasUsed"; cbn; tauto]. }
  destruct (spreadConverted hd "timestamp" _ _) as [o4|e] eqn:H4; cbn [bind].
  2:{ pose proof (spreadConverted_spec hd "timestamp" (JS.get block "timestamp") o3) as Hs.
      rewrite H4 in Hs. split; [reflexivity|left; exists "timestamp"; cbn; tauto]. }
  destruct (UtilsGuarded.spreadTransactions _ _) as [o5|e] eqn:H5; cbn [bind].
  2:{ apply spreadTransactions_Throw in H5. split; [reflexivity|now right]. }
  exists o5. split; [reflexivity|].
  apply spreadConverted_lookup in H1 as [H1o H1k].
  apply spreadConverted_lookup in H2 as [H2o H2k].
  apply spreadConverted_lookup in H3 as [H3o H3k].
  apply spreadConverted_lookup in H4 as [H4o H4k].
  apply spreadTransactions_lookup in H5 as [H5o H5k].
  split.
  - intros k [<- | [<- | [<- | [<- | []]]]].
    + rewrite H5o, H4o, H3o, H2o by discriminate. exact H1k.
    + rewrite H5o, H4o, H3o by discriminate. revert H2k.
      destruct (JS.toBoolean (JS.get block "gasLimit")); [tauto|].
      intros ->. now rewrite H1o by discriminate.
    + rewrite H5o, H4o by discriminate. revert H3k.
      destruct (JS.toBoolean (JS.get block "gasUsed")); [tauto|].
      intros ->. now rewrite H2o, H1o by discriminate.
    + rewrite H5o by discriminate. revert H4k.
      destruct (JS.toBoolean (JS.get block "timestamp")); [tauto|].
      intros ->. now rewrite H3o, H2o, H1o by discriminate.
  - assert (Hrest : o4 !! "transactions" = JS.ownProps block !! "transactions")
      by now rewrite H4o, H3o, H2o, H1o by discriminate.
    destruct (JS.get block "transactions") eqn:Hg; cbn [JS.toBoolean] in H5k;
      try (rewrite H5k; exact Hrest).
    + destruct b; [|now rewrite H5k].
      rewrite H5k, <- Hg. symmetry. apply get_truthy_lookup. now rewrite Hg.
    + destruct (Num.toBoolean x) eqn:Hx; [|now rewrite H5k].
      rewrite H5k, <- Hg. symmetry. apply get_truthy_lookup. now rewrite Hg.
    + destruct (negb (String.eqb s "")) eqn:Hx; [|now rewrite H5k].
      rewrite H5k, <- Hg. symmetry. apply get_truthy_lookup. now rewrite Hg.
    + destruct H5k as (txs' & Ht & Hf). exists txs'. split; [exact Ht|].
      clear Hg Ht.
      induction Hf as [|tx tx' txs txs'' Hx _ IH]; [constructor|].
      constructor; [|exact IH].
      revert Hx. unfold transformElement, hd.
      destruct (String.eqb (JS.typeof tx) "object"); [auto|].
      now intros [= ->].
    + rewrite H5k, <- Hg. symmetry. apply get_truthy_lookup. now rewrite Hg.
  - intros k Hk. cbn in Hk.
    now rewrite H5o, H4o, H3o, H2o, H1o by (intros E; subst; intuition).
Qed.

End GuardedBlocks.

(* ===================================================================== *)
(** ** Numbers given by integers *)
(* ===================================================================== *)

Section IntegerNumbers.

Lemma iter_pos_invariant {A} (P : A -> Prop) (f : A -> A) :
  (forall x, P x -> P (f x)) -> forall n x, P x -> P (SpecFloat.iter_pos f n x).
Proof.
  intros Hf. induction n as [n IH|n IH|]; intros x Hx; cbn [SpecFloat.iter_pos]; auto.
Qed.

Lemma shr_1_nonneg mrs : 0 <= shr_m mrs -> 0 <= shr_m (shr_1 mrs).
Proof.
  destruct mrs as [m r s]. cbn [shr_m]. intros Hm.
  destruct m as [|[p|p|]|p]; cbn; lia.
Qed.

Lemma shr_nonneg mrs e n : 0 <= shr_m mrs -> 0 <= shr_m (fst (shr mrs e n)).
Proof.
  intros Hm. destruct n; cbn [shr fst]; auto.
  apply (iter_pos_invariant (fun x => 0 <= shr_m x)); auto using shr_1_nonneg.
Qed.

Lemma shr_fexp_nonneg m e l :
  0 <= m -> 0 <= shr_m (fst (shr_fexp Num.prec Num.emax m e l)).
Proof.
  intros Hm. unfold shr_fexp. apply shr_nonneg. now destruct l as [|[]].
Qed.

Lemma binary_round_aux_not_NaN s m e l :
  0 <= m -> Num.isNaN (binary_round_aux Num.prec Num.emax s m e l) = false.
Proof.
  intros Hm. unfold binary_round_aux.
  pose proof (shr_fexp_nonneg m e l Hm) as H1.
  destruct (shr_fexp Num.prec Num.emax m e l) as [mrs' e']. cbn [fst] in H1.
  assert (H2 : 0 <= round_nearest_even (shr_m mrs') (loc_of_shr_record mrs')).
  { unfold round_nearest_even.
    destruct (loc_of_shr_record mrs') as [|[]]; try lia.
    destruct (Z.even (shr_m mrs')); lia. }
  pose proof (shr_fexp_nonneg _ e' loc_Exact H2) as H3.
  destruct (shr_fexp Num.prec Num.emax _ e' loc_Exact) as [mrs'' e'']. cbn [fst] in H3.
  destruct (shr_m mrs''); [reflexivity| |lia].
  now destruct (e'' <=? Num.emax - Num.prec).
Qed.

(** The Number for an integer is never NaN. *)
Lemma ofZ_not_NaN z : Num.isNaN (Num.ofZ z) = false.
Proof.
  unfold Num.ofZ, binary_normalize. destruct z as [|m|m]; [reflexivity|..];
    unfold binary_round;
    destruct (shl_align _ _ _) as [mz ez]; now apply binary_round_aux_not_NaN.
Qed.

Lemma digits2_pos_size m : digits2_pos m = Pos.size m.
Proof. induction m; cbn; congruence. Qed.

Lemma digits2_pos_bound m k :
  Zpos m < 2 ^ Zpos k -> (digits2_pos m <= k)%positive.
Proof.
  intros Hm. rewrite digits2_pos_size.
  pose proof (Pos.size_le m) as Hs.
  apply Pos.lt_succ_r. rewrite <- Pos.add_1_r.
  assert (H : Zpos (2 ^ Pos.size m) < 2 ^ (Zpos (k + 1))).
  { rewrite Pos2Z.inj_add, Z.pow_add_r by lia.
    apply Pos2Z.pos_le_pos in Hs. rewrite Pos2Z.inj_xO in Hs. lia. }
  rewrite Pos2Z.inj_pow in H.
  apply Z.pow_lt_mono_r_iff in H; lia.
Qed.

Lemma iter_xO_value m k : Zpos (Pos.iter xO m k) = Zpos m * 2 ^ Zpos k.
Proof.
  induction k as [|k IH] using Pos.peano_ind.
  - cbn. lia.
  - rewrite Pos.iter_succ, Pos2Z.inj_xO, IH, Pos2Z.inj_succ, Z.pow_succ_r by lia. lia.
Qed.

Lemma iter_xO_digits m k :
  digits2_pos (Pos.iter xO m k) = (digits2_pos m + k)%positive.
Proof.
  induction k as [|k IH] using Pos.peano_ind.
  - cbn. lia.
  - rewrite Pos.iter_succ. cbn [digits2_pos]. rewrite IH. lia.
Qed.

(** A mantissa that fills the precision, with exponent in range, is
    left as it is by rounding. *)
Lemma binary_round_aux_exact m e :
  Zpos (digits2_pos m) = Num.prec -> -1021 <= e <= 971 ->
  binary_round_aux Num.prec Num.emax false (Zpos m) e loc_Exact
  = S754_finite false m e.
Proof.
  intros Hd He.
  assert (Hs : shr_fexp Num.prec Num.emax (Zpos m) e loc_Exact
               = ({| shr_m := Zpos m; shr_r := false; shr_s := false |}, e)).
  { unfold shr_fexp. cbn [Zdigits2]. rewrite Hd.
    replace (fexp Num.prec Num.emax (Num.prec + e) - e) with 0.
    - reflexivity.
    - unfold fexp, emin, Num.prec, Num.emax. lia. }
  unfold binary_round_aux. rewrite Hs. cbn [shr_m loc_of_shr_record round_nearest_even].
  rewrite Hs. cbn [shr_m].
  replace (e <=? Num.emax - Num.prec) with true; [reflexivity|].
  symmetry. apply Z.leb_le. unfold Num.prec, Num.emax. lia.
Qed.

(** Integers below 2^53 are Numbers: the conversion loses nothing. *)
Lemma ofZ_exact n :
  (n < 2 ^ 53)%N -> Num.toInteger (Num.ofZ (Z.of_N n)) = Some (Z.of_N n).
Proof.
  intros Hn. destruct n as [|m]; [reflexivity|].
  cbn [Z.of_N]. unfold Num.ofZ, binary_normalize, binary_round.
  assert (Hd : (digits2_pos m <= 53)%positive).
  { apply digits2_pos_bound. change (2 ^ 53)%N with (Npos (2 ^ 53)) in Hn.
    change (2 ^ 53) with (Zpos (2 ^ 53)). lia. }
  rewrite Z.add_0_r.
  unfold shl_align.
  replace (fexp Num.prec Num.emax (Zpos (digits2_pos m)))
    with (Zpos (digits2_pos m) - 53)
    by (unfold fexp, emin, Num.prec, Num.emax; lia).
  rewrite Z.sub_0_r.
  destruct (Zpos (digits2_pos m) - 53) as [|q|q] eqn:Hq; [|lia|].
  - rewrite binary_round_aux_exact by (unfold Num.prec; lia).
    cbn [Num.toInteger]. f_equal. lia.
  - rewrite binary_round_aux_exact.
    + cbn [Num.toInteger]. rewrite iter_xO_value.
      rewrite Z.mod_mul, Z.eqb_refl by lia. f_equal.
      apply Z.div_mul. lia.
    + rewrite iter_xO_digits. unfold Num.prec. lia.
    + lia.
Qed.

End IntegerNumbers.

(* ===================================================================== *)
(** ** [hexToDecimal] on hexadecimal quantities *)
(* ===================================================================== *)

Section HexToDecimal.

Lemma readDigits_takeDigits radix s : forall acc n,
  Str.readDigits radix s acc = Some n -> Str.takeDigits radix s = s.
Proof.
  induction s as [|c r IH]; intros acc n; [reflexivity|]. cbn.
  destruct (Str.digit radix c); [|discriminate].
  intros H. now rewrite (IH _ _ H).
Qed.

Lemma digits_takeDigits radix s n :
  Str.digits radix s = Some n -> Str.takeDigits radix s = s.
Proof.
  unfold Str.digits. destruct s; [discriminate|]. apply readDigits_takeDigits.
Qed.

(** The value [parseInt] computes from the digits it has kept. *)
Lemma parseInt16_value s n :
  Str.digits 16 (Str.takeDigits 16 s) = Some n ->
  match Str.digits 16 (Str.takeDigits 16 s) with
  | None => Num.NaN
  | Some 0%N => S754_zero false
  | Some n => Num.ofZ (Z.of_N n)
  end = Num.ofZ (Z.of_N n).
Proof. intros ->. now destruct n. Qed.

(** [parseInt(ds, 16)] on hexadecimal digits, bare or after ["0X"]. *)
Lemma parseInt16_hex ds n :
  encodesHex ds n ->
  JS.parseInt16 ds = Num.ofZ (Z.of_N n) /\
  JS.parseInt16 (String "0" (String "X" ds)) = Num.ofZ (Z.of_N n).
Proof.
  intros H. pose proof (digits_takeDigits _ _ _ H) as Ht.
  unfold encodesHex in H. split.
  - unfold JS.parseInt16.
    assert (Hs : Str.trimStart ds = ds).
    { unfold Str.digits in H. destruct ds; [discriminate|].
      exact (readDigits_trimStart _ _ _ _ H). }
    rewrite Hs.
    destruct ds as [|c r]; [discriminate|].
    assert (Hc : exists d, Str.digit 16 c = Some d).
    { cbn in H. destruct (Str.digit 16 c); [eauto|discriminate]. }
    destruct Hc as [d Hc].
    destruct c as [[|] [|] [|] [|] [|] [|] [|] [|]]; try discriminate Hc;
      try (cbv iota beta; apply parseInt16_value; now rewrite Ht).
    (* the first digit is zero: the next one is no radix mark *)
    destruct r as [|c' r'];
      [cbv iota beta; apply parseInt16_value; now rewrite Ht|].
    assert (Hc' : exists d', Str.digit 16 c' = Some d').
    { cbn in H. destruct (Str.digit 16 c'); [eauto|discriminate]. }
    destruct Hc' as [d' Hc'].
    destruct c' as [[|] [|] [|] [|] [|] [|] [|] [|]]; try discriminate Hc';
      cbv iota beta; cbn [Ascii.eqb Bool.eqb orb];
      apply parseInt16_value; now rewrite Ht.
  - unfold JS.parseInt16. cbn [Str.trimStart].
    change (Str.isWhiteSpace "0") with false. cbv iota beta.
    change (Ascii.eqb "X" "x" || Ascii.eqb "X" "X") with true. cbv iota.
    apply parseInt16_value. now rewrite Ht.
Qed.

Lemma replace_0X_prefix ds n :
  encodesHex ds n ->
  Str.replace "0x" "" (String "0" (String "X" ds)) = String "0" (String "X" ds).
Proof.
  intros H. cbn [Str.replace].
  rewrite prefix_0x_false by (intros r; rewrite append_0x; discriminate).
  rewrite prefix_0x_false by (intros r; rewrite append_0x; discriminate).
  now rewrite (digits_replace _ _ H).
Qed.

Lemma Utils_hexToDecimal_clean s n :
  s <> "" -> JS.parseInt16 (Str.replace "0x" "" s) = Num.ofZ (Z.of_N n) ->
  Utils.hexToDecimal (VStr s) = Ok (Num.ofZ (Z.of_N n)).
Proof.
  intros Hne Hp. unfold Utils.hexToDecimal.
  rewrite (toBoolean_nonempty _ Hne). cbn [negb JS.replaceMethod bind].
  now rewrite Hp.
Qed.

Lemma UtilsGuarded_hexToDecimal_clean s n :
  s <> "" -> s <> "0x" ->
  JS.parseInt16 (Str.replace "0x" "" s) = Num.ofZ (Z.of_N n) ->
  UtilsGuarded.hexToDecimal (VStr s) = Ok (Num.ofZ (Z.of_N n)).
Proof.
  intros Hne Hx Hp. unfold UtilsGuarded.hexToDecimal.
  rewrite (toBoolean_nonempty _ Hne), (isString_neq _ _ Hx).
  cbn [negb orb JS.toStringMethod JS.toString bind].
  now rewrite Hp, ofZ_not_NaN.
Qed.

End HexToDecimal.

(** X9. For every non-empty string [ds] of hexadecimal digits encoding
    [n], [hexToDecimal] of [ds], of ["0x" + ds] and of ["0X" + ds] is the
    Number nearest to [n] (never NaN), in [src/utils.ts] and in the
    guarded draft; below 2^53 that Number is [n] itself, so block
    numbers, gas amounts and timestamps are converted without loss. *)
Theorem hexToDecimal_hex (ds : string) (n : N) (H : encodesHex ds n) :
  Forall (fun s => Utils.hexToDecimal (VStr s) = Ok (Num.ofZ (Z.of_N n)) /\
                   UtilsGuarded.hexToDecimal (VStr s) = Ok (Num.ofZ (Z.of_N n)))
    [ds; "0x" +:+ ds; "0X" +:+ ds] /\
  Num.isNaN (Num.ofZ (Z.of_N n)) = false /\
  ((n < 2 ^ 53)%N -> Num.toInteger (Num.ofZ (Z.of_N n)) = Some (Z.of_N n)).
Proof.
  destruct (parseInt16_hex ds n H) as [Hp HpX].
  pose proof (digits_nonempty _ _ _ H) as Hne.
  repeat apply conj.
  - repeat constructor.
    + apply Utils_hexToDecimal_clean; [exact Hne|].
      now rewrite (digits_replace _ _ H).
    + apply UtilsGuarded_hexToDecimal_clean;
        [exact Hne | exact (digits_hex_not_0x _ _ H) |].
      now rewrite (digits_replace _ _ H).
    + apply Utils_hexToDecimal_clean; [rewrite append_0x; discriminate|].
      now rewrite replace_0x_prefix.
    + apply UtilsGuarded_hexToDecimal_clean;
        [rewrite append_0x; discriminate
        |rewrite append_0x; intros [= E]; now apply Hne|].
      now rewrite replace_0x_prefix.
    + change ("0X" +:+ ds) with (String "0" (String "X" ds)).
      apply Utils_hexToDecimal_clean; [discriminate|].
      now rewrite (replace_0X_prefix _ _ H).
    + change ("0X" +:+ ds) with (String "0" (String "X" ds)).
      apply UtilsGuarded_hexToDecimal_clean; [discriminate | discriminate |].
      now rewrite (replace_0X_prefix _ _ H).
  - apply ofZ_not_NaN.
  - apply ofZ_exact.
Qed.

Lemma hexToDecimal_hex_witness :
  Utils.hexToDecimal (VStr "0x60ad0d60") = Ok (Num.ofZ 1621953888) /\
  Num.toInteger (Num.ofZ 1621953888) = Some 1621953888.
Proof.
  destruct (hexToDecimal_hex "60ad0d60" 1621953888 eq_refl) as (Hf & _ & He).
  split.
  - apply Forall_cons in Hf as [_ Hf]. apply Forall_cons in Hf as [[Hu _] _]. exact Hu.
  - apply He. reflexivity.
Defined.



(* ===================================================================== *)
(** ** The rules for quantities and balances *)
(* ===================================================================== *)

(** X11. For a result ["0x" + ds] with [ds] hexadecimal digits encoding
    [n], the normaliser gives the Number of [n] for [eth_blockNumber],
    [eth_gasPrice] and [eth_estimateGas], and for [eth_getBalance] the
    pair whose [wei] is the decimal numeral of [n] and whose [ether] is
    the rendering of the Number of [n] divided by [1e18]; in
    [src/utils.ts] and in the guarded draft. *)
Theorem quantity_results (ds : string) (n : N) (H : encodesHex ds n) :
  let balance :=
    obj [("wei", VStr (Str.ofN n));
         ("ether", VStr (Num.toString
                           (Num.div (Num.ofZ (Z.of_N n)) (Num.ofZ (10 ^ 18)))))] in
  Forall (fun method =>
            Utils.transformResponse method (VStr ("0x" +:+ ds)) = Ok (num (Z.of_N n)) /\
            UtilsGuarded.transformResponse method (VStr ("0x" +:+ ds))
            = Ok (num (Z.of_N n)))
    ["eth_blockNumber"; "eth_gasPrice"; "eth_estimateGas"] /\
  Utils.transformResponse "eth_getBalance" (VStr ("0x" +:+ ds)) = Ok balance /\
  UtilsGuarded.transformResponse "eth_getBalance" (VStr ("0x" +:+ ds)) = Ok balance.
Proof.
  intros balance.
  pose proof (digits_nonempty _ _ _ H) as Hne.
  destruct (parseInt16_hex ds n H) as [Hp _].
  assert (Hu : Utils.hexToDecimal (VStr ("0x" +:+ ds)) = Ok (Num.ofZ (Z.of_N n))).
  { apply Utils_hexToDecimal_clean; [rewrite append_0x; discriminate|].
    now rewrite replace_0x_prefix. }
  assert (Hg : UtilsGuarded.hexToDecimal (VStr ("0x" +:+ ds)) = Ok (Num.ofZ (Z.of_N n))).
  { apply UtilsGuarded_hexToDecimal_clean;
      [rewrite append_0x; discriminate
      |rewrite append_0x; intros [= E]; now apply Hne|].
    now rewrite replace_0x_prefix. }
  assert (Hsu : Utils.hexToDecimalString (VStr ("0x" +:+ ds)) = Ok (Str.ofN n)).
  { apply Utils_hexToDecimalString_clean with ds;
      [rewrite append_0x; discriminate | apply replace_0x_prefix | exact H]. }
  assert (Hsg : UtilsGuarded.hexToDecimalString (VStr ("0x" +:+ ds)) = Ok (Str.ofN n)).
  { apply UtilsGuarded_hexToDecimalString_clean with ds;
      [rewrite append_0x; discriminate
      |rewrite append_0x; intros [= E]; now apply Hne
      |apply replace_0x_prefix | exact H]. }
  assert (Hbig : JS.toBigInt (VStr ("0x" +:+ ds)) = Ok (Z.of_N n)).
  { cbn [JS.toBigInt]. now rewrite (stringToBigInt_hex _ _ H). }
  assert (Ht : JS.toBoolean (VStr ("0x" +:+ ds)) = true) by now rewrite append_0x.
  assert (Hx : JS.isString (VStr ("0x" +:+ ds)) "0x" = false).
  { apply isString_neq. rewrite append_0x. intros [= E].
    exact (digits_nonempty _ _ _ H E). }
  assert (Hwu : Utils.weiToEther (VStr ("0x" +:+ ds))
                = Ok (Num.toString (Num.div (Num.ofZ (Z.of_N n)) (Num.ofZ (10 ^ 18))))).
  { unfold Utils.weiToEther. now rewrite Ht, Hbig. }
  assert (Hwg : UtilsGuarded.weiToEther (VStr ("0x" +:+ ds))
                = Ok (Num.toString (Num.div (Num.ofZ (Z.of_N n)) (Num.ofZ (10 ^ 18))))).
  { unfold UtilsGuarded.weiToEther. now rewrite Ht, Hx, Hbig. }
  repeat apply conj.
  - repeat constructor;
      unfold Utils.transformResponse, UtilsGuarded.transformResponse;
      rewrite Ht; cbn [negb oneOf existsb String.eqb Ascii.eqb Bool.eqb orb];
      rewrite ?Hu, ?Hg; reflexivity.
  - unfold Utils.transformResponse. rewrite Ht.
    cbn [negb oneOf existsb String.eqb Ascii.eqb Bool.eqb orb].
    unfold weiAndEther. rewrite Hsu, Hwu. reflexivity.
  - unfold UtilsGuarded.transformResponse. rewrite Ht.
    cbn [negb oneOf existsb String.eqb Ascii.eqb Bool.eqb orb JS.typeof].
    unfold weiAndEther. rewrite Hsg, Hwg. reflexivity.
Qed.

Lemma quantity_results_witness :
  UtilsGuarded.transformResponse "eth_getBalance" (VStr "0x16345785d8a0000")
  = Ok (obj [("wei", VStr "100000000000000000"); ("ether", VStr "0.1")]).
Proof.
  etransitivity;
    [exact (proj2 (proj2 (quantity_results "16345785d8a0000" 100000000000000000 eq_refl)))
    | vm_compute; reflexivity].
Defined.

(** X12. A truthy result that is no string (a number, [true], an array,
    an object). In [src/utils.ts] [hexToDecimal] and [hexToDecimalString]
    throw a TypeError on it, and so does the normaliser for the three
    quantity methods and for [eth_getBalance]; the guarded draft returns
    such a balance result as it is. *)
Theorem non_string_results (v : value)
  (Htruthy : JS.toBoolean v = true) (Hkind : JS.typeof v <> "string") :
  Utils.hexToDecimal v = Throw TypeError /\
  Utils.hexToDecimalString v = Throw TypeError /\
  Forall (fun method => Utils.transformResponse method v = Throw TypeError)
    ["eth_blockNumber"; "eth_gasPrice"; "eth_estimateGas"; "eth_getBalance"] /\
  UtilsGuarded.transformResponse "eth_getBalance" v = Ok v.
Proof.
  assert (Hr : forall pat rep, JS.replaceMethod v pat rep = Throw TypeError).
  { intros pat rep. destruct v; try reflexivity. now destruct Hkind. }
  assert (Hd : Utils.hexToDecimal v = Throw TypeError).
  { unfold Utils.hexToDecimal. now rewrite Htruthy, Hr. }
  assert (Hs : Utils.hexToDecimalString v = Throw TypeError).
  { unfold Utils.hexToDecimalString. now rewrite Htruthy, Hr. }
  repeat apply conj; auto.
  - repeat constructor; unfold Utils.transformResponse; rewrite Htruthy;
      cbn [negb oneOf existsb String.eqb Ascii.eqb Bool.eqb orb];
      unfold weiAndEther; rewrite ?Hd, ?Hs; reflexivity.
  - unfold UtilsGuarded.transformResponse. rewrite Htruthy.
    cbn [negb oneOf existsb String.eqb Ascii.eqb Bool.eqb orb].
    replace (String.eqb (JS.typeof v) "string") with false; [reflexivity|].
    symmetry. now apply String.eqb_neq.
Qed.

Lemma non_string_results_witness :
  Utils.transformResponse "eth_blockNumber" (num 4660) = Throw TypeError /\
  UtilsGuarded.transformResponse "eth_getBalance" (num 4660) = Ok (num 4660).
Proof.
  destruct (non_string_results (num 4660) eq_refl ltac:(discriminate))
    as (_ & _ & Hf & Hg).
  split; [|exact Hg].
  apply Forall_cons in Hf as [Hb _]. exact Hb.
Defined.

(* ===================================================================== *)
(** ** The block rule of [src/utils.ts] and what the normaliser keeps *)
(* ===================================================================== *)

Section UnguardedBlocks.

Abbreviation unguardedElement :=
  (transformElement Utils.hexToDecimal Utils.hexToDecimalString Utils.weiToEther).

(** What the block rule of [src/utils.ts] does with a truthy result. *)
Lemma Utils_block_rule method block :
  In method ["eth_getBlockByNumber"; "eth_getBlockByHash"] ->
  match Utils.transformResponse method block with
  | Ok r =>
      if isObject block
      then exists out txs txs',
             r = VObj out /\
             JS.get block "transactions" = VArr txs /\
             (forall k, In k blockFields ->
                converted Utils.hexToDecimal (JS.get block k) (out !! k)) /\
             out !! "transactions" = Some (VArr txs') /\
             Forall2
               (fun tx tx' =>
                  if String.eqb (JS.typeof tx) "object"
                  then Utils.transformTransaction tx = Ok tx'
                  else tx' = tx)
               txs txs' /\
             (forall k, ~ In k ("transactions" :: blockFields) ->
                out !! k = JS.ownProps block !! k)
      else r = block
  | Throw e =>
      isObject block = true /\
      ((exists k, In k blockFields /\ Utils.hexToDecimal (JS.get block k) = Throw e) \/
       (e = TypeError /\ forall txs, JS.get block "transactions" <> VArr txs) \/
       (exists txs tx, JS.get block "transactions" = VArr txs /\ In tx txs /\
                       unguardedElement tx = Throw e))
  end.
Proof.
  intros Hm. unfold Utils.transformResponse, isObject.
  destruct (JS.toBoolean block); [|reflexivity]. cbn [negb andb].
  assert (Hsw : oneOf method ["eth_blockNumber"; "eth_gasPrice"; "eth_estimateGas"] = false
                /\ oneOf method ["eth_getBalance"] = false
                /\ oneOf method ["eth_getBlockByNumber"; "eth_getBlockByHash"] = true).
  { destruct Hm as [<- | [<- | []]]; repeat split. }
  destruct Hsw as (-> & -> & ->).
  destruct (String.eqb (JS.typeof block) "object"); [|reflexivity].
  destruct (Utils.hexToDecimal (JS.get block "number")) as [d1|e] eqn:H1; cbn [bind];
    [|split; [reflexivity|left; exists "number"; cbn; tauto]].
  destruct (Utils.hexToDecimal (JS.get block "gasLimit")) as [d2|e] eqn:H2; cbn [bind];
    [|split; [reflexivity|left; exists "gasLimit"; cbn; tauto]].
  destruct (Utils.hexToDecimal (JS.get block "gasUsed")) as [d3|e] eqn:H3; cbn [bind];
    [|split; [reflexivity|left; exists "gasUsed"; cbn; tauto]].
  destruct (Utils.hexToDecimal (JS.get block "timestamp")) as [d4|e] eqn:H4; cbn [bind];
    [|split; [reflexivity|left; exists "timestamp"; cbn; tauto]].
  unfold Utils.mapMethod.
  destruct (JS.get block "transactions") as [| | | | |txs|] eqn:Hg; cbn [bind];
    try (split; [reflexivity|right; left; split; [reflexivity|congruence]]).
  unfold omap. destruct (mapM unguardedElement txs) as [txs'|e] eqn:Ht; cbn [bind].
  - exists (<["transactions":=VArr txs']>
              (<["timestamp":=VNum d4]> (<["gasUsed":=VNum d3]>
              (<["gasLimit":=VNum d2]> (<["number":=VNum d1]> (JS.ownProps block)))))),
      txs, txs'.
    repeat apply conj; try reflexivity.
    + intros k [<- | [<- | [<- | [<- | []]]]]; lookup_defined; eexists; eauto.
    + now lookup_defined.
    + apply mapM_Ok in Ht. clear Hg.
      induction Ht as [|tx tx' txs txs' Hx _ IH]; [constructor|].
      constructor; [|exact IH].
      revert Hx. unfold transformElement, Utils.transformTransaction.
      destruct (String.eqb (JS.typeof tx) "object"); [auto|]. now intros [= ->].
    + intros k Hk. cbn in Hk.
      rewrite !lookup_insert_ne by (intros E; subst; intuition). reflexivity.
  - split; [reflexivity|]. right; right.
    apply mapM_Throw in Ht as (tx & Hin & Htx). eauto.
Qed.

End UnguardedBlocks.

(** X13. The block rule of [src/utils.ts], as the code has it. For
    [eth_getBlockByNumber] and [eth_getBlockByHash] a result that is not
    an object comes back as it is. An object comes back only if its
    [transactions] is an array: then [number], [gasLimit], [gasUsed] and
    [timestamp] are always present in the output as the [hexToDecimal] of
    the source field (0 for an absent one), every element of
    [transactions] whose [typeof] is ['object'] has gone through the
    transaction transform and every other element is untouched, and all
    other properties are copied. Otherwise the rule throws: what a
    conversion throws, or a TypeError when [transactions] is no array. *)
Theorem unguarded_block_rule (block : value) :
  Forall
    (fun method =>
       match Utils.transformResponse method block with
       | Ok r =>
           if isObject block
           then exists out txs txs',
                  r = VObj out /\
                  JS.get block "transactions" = VArr txs /\
                  (forall k, In k blockFields ->
                     converted Utils.hexToDecimal (JS.get block k) (out !! k)) /\
                  out !! "transactions" = Some (VArr txs') /\
                  Forall2
                    (fun tx tx' =>
                       if String.eqb (JS.typeof tx) "object"
                       then Utils.transformTransaction tx = Ok tx'
                       else tx' = tx)
                    txs txs' /\
                  (forall k, ~ In k ("transactions" :: blockFields) ->
                     out !! k = JS.ownProps block !! k)
           else r = block
       | Throw e =>
           isObject block = true /\
           ((exists k, In k blockFields /\
                       Utils.hexToDecimal (JS.get block k) = Throw e) \/
            (e = TypeError /\ forall txs, JS.get block "transactions" <> VArr txs) \/
            (exists txs tx,
               JS.get block "transactions" = VArr txs /\ In tx txs /\
               transformElement Utils.hexToDecimal Utils.hexToDecimalString
                 Utils.weiToEther tx = Throw e))
       end)
    ["eth_getBlockByNumber"; "eth_getBlockByHash"].
Proof.
  repeat constructor; apply Utils_block_rule; cbn; tauto.
Qed.

Section KeptProperties.

Lemma converted_is_Some hexToDecimal source field :
  converted hexToDecimal source field -> is_Some field.
Proof. intros (d & _ & ->). eauto. Qed.

Lemma policy_keeps hexToDecimal hexToDecimalString weiToEther props out k :
  transactionPolicy hexToDecimal hexToDecimalString weiToEther (VObj props) out ->
  is_Some (props !! k) -> is_Some (out !! k).
Proof.
  intros [Hn Hp Hv Ho Hr] Hk.
  destruct (in_dec string_dec k nullableFields) as [Hin|Hnn].
  { specialize (Hn k Hin). destruct (JS.toBoolean _).
    - eapply converted_is_Some; eauto.
    - rewrite Hn. eauto. }
  destruct (in_dec string_dec k plainFields) as [Hin|Hnp].
  { eapply converted_is_Some; eauto. }
  destruct (string_dec k "value") as [->|Hnv].
  { destruct Hv as (w & e & _ & _ & ->). eauto. }
  destruct (in_dec string_dec k optionalFields) as [Hin|Hno].
  { specialize (Ho k Hin). destruct (JS.toBoolean _).
    - eapply converted_is_Some; eauto.
    - now rewrite Ho. }
  rewrite Hr; [exact Hk|].
  unfold rewrittenFields. rewrite !in_app_iff. cbn [In]. intuition.
Qed.

Lemma transaction_keeps hexToDecimal hexToDecimalString weiToEther props out k :
  transformTransaction hexToDecimal hexToDecimalString weiToEther (VObj props)
  = Ok (VObj out) ->
  is_Some (props !! k) -> is_Some (out !! k).
Proof.
  intros H.
  pose proof (transformTransaction_spec hexToDecimal hexToDecimalString weiToEther
                (VObj props)) as Hs.
  rewrite H in Hs. cbn [isObject JS.toBoolean JS.typeof String.eqb andb] in Hs.
  change (isObject (VObj props)) with true in Hs.
  destruct Hs as (out' & [= <-] & Hpol). eapply policy_keeps; eauto.
Qed.

End KeptProperties.

(** X14. The normaliser never drops a property: whenever it turns an
    object result into an object, for any method, every property of the
    result is still present in the output; in [src/utils.ts] and in the
    guarded draft. *)
Theorem normaliser_keeps_properties
  (method : string) (props out : gmap string value) (k : string)
  (Hk : is_Some (props !! k)) :
  (Utils.transformResponse method (VObj props) = Ok (VObj out) -> is_Some (out !! k)) /\
  (UtilsGuarded.transformResponse method (VObj props) = Ok (VObj out) ->
   is_Some (out !! k)).
Proof.
  split.
  - intros H.
    destruct (oneOf method ["eth_getBlockByNumber"; "eth_getBlockByHash"]) eqn:Hb.
    { assert (Hm : In method ["eth_getBlockByNumber"; "eth_getBlockByHash"]).
      { unfold oneOf in Hb. apply existsb_exists in Hb as (l & Hin & He).
        apply String.eqb_eq in He. now subst. }
      pose proof (Utils_block_rule method (VObj props) Hm) as Hs.
      rewrite H in Hs. change (isObject (VObj props)) with true in Hs.
      destruct Hs as (out' & txs & txs' & [= <-] & _ & Hnum & Htx & _ & Hrest).
      destruct (in_dec string_dec k ("transactions" :: blockFields)) as [Hin|Hn].
      - destruct Hin as [<- | Hin]; [rewrite Htx; eauto|].
        eapply converted_is_Some; eauto.
      - rewrite Hrest by exact Hn. exact Hk. }
    revert H. unfold Utils.transformResponse. rewrite Hb.
    cbn [JS.toBoolean negb].
    destruct (oneOf method ["eth_blockNumber"; "eth_gasPrice"; "eth_estimateGas"]).
    { unfold omap. cbn. discriminate. }
    destruct (oneOf method ["eth_getBalance"]).
    { unfold weiAndEther. cbn. discriminate. }
    destruct (oneOf method ["eth_getTransactionByHash"; "eth_getTransactionReceipt"]).
    { intros H. eapply transaction_keeps; eauto. }
    now intros [= <-].
  - intros H.
    destruct (oneOf method ["eth_getBlockByNumber"; "eth_getBlockByHash"]) eqn:Hb.
    { assert (Hm : In method ["eth_getBlockByNumber"; "eth_getBlockByHash"]).
      { unfold oneOf in Hb. apply existsb_exists in Hb as (l & Hin & He).
        apply String.eqb_eq in He. now subst. }
      pose proof (guarded_block_rule method (VObj props) Hm) as Hs.
      rewrite H in Hs. change (isObject (VObj props)) with true in Hs.
      destruct Hs as (out' & [= <-] & [Hnum Htx Hrest]).
      destruct (in_dec string_dec k ("transactions" :: blockFields)) as [Hin|Hn].
      - destruct Hin as [<- | Hin].
        + destruct (JS.get (VObj props) "transactions");
            try (now rewrite Htx).
          destruct Htx as (txs' & -> & _). eauto.
        + specialize (Hnum k Hin). destruct (JS.toBoolean _).
          * eapply converted_is_Some; eauto.
          * now rewrite Hnum.
      - rewrite Hrest by exact Hn. exact Hk. }
    revert H. unfold UtilsGuarded.transformResponse. rewrite Hb.
    cbn [JS.toBoolean negb].
    destruct (oneOf method ["eth_blockNumber"; "eth_gasPrice"; "eth_estimateGas"]).
    { unfold omap. destruct (UtilsGuarded.hexToDecimal _); cbn; discriminate. }
    destruct (oneOf method ["eth_getBalance"]).
    { cbn. now intros [= <-]. }
    destruct (oneOf method ["eth_getTransactionByHash"; "eth_getTransactionReceipt"]).
    { intros H. eapply transaction_keeps; eauto. }
    now intros [= <-].
Qed.

Lemma normaliser_keeps_properties_witness :
  is_Some
    ((list_to_map [("blockNumber", VNull); ("transactionIndex", VNull);
                   ("gasPrice", VNull); ("gas", num 21000); ("nonce", num 0);
                   ("value", obj [("wei", VStr "0"); ("ether", VStr "0")]);
                   ("hash", VStr "0xabc")] : gmap string value) !! "hash").
Proof.
  refine (proj2 (normaliser_keeps_properties "eth_getTransactionReceipt"
            (list_to_map [("hash", VStr "0xabc"); ("gas", VStr "0x5208");
                          ("nonce", VStr "0x0"); ("value", VStr "0x0")])
            _ "hash" _) _).
  - eexists. reflexivity.
  - vm_compute. reflexivity.
Defined.

(* ===================================================================== *)
(** ** Numerals without prefix *)
(* ===================================================================== *)

Section DecimalNumerals.

Lemma digit_decimal_hex c d : Str.digit 10 c = Some d -> Str.digit 16 c = Some d.
Proof.
  destruct c as [[|] [|] [|] [|] [|] [|] [|] [|]]; intros H;
    try discriminate H; exact H.
Qed.

(** A string of decimal digits is a string of hexadecimal digits, and
    reads at least as much in base 16. *)
Lemma readDigits_decimal_hex s : forall acc acc' m,
  (acc <= acc')%N -> Str.readDigits 10 s acc = Some m ->
  exists n, Str.readDigits 16 s acc' = Some n /\ (m <= n)%N.
Proof.
  induction s as [|c r IH]; intros acc acc' m Hle; cbn [Str.readDigits].
  - intros [= <-]. eauto.
  - destruct (Str.digit 10 c) as [d|] eqn:Hd; [|discriminate].
    rewrite (digit_decimal_hex _ _ Hd). apply IH. lia.
Qed.

Lemma digits_decimal_hex s m :
  Str.digits 10 s = Some m -> exists n, Str.digits 16 s = Some n /\ (m <= n)%N.
Proof.
  unfold Str.digits. destruct s; [discriminate|].
  now apply readDigits_decimal_hex.
Qed.

(** A string of decimal digits is a StringIntegerLiteral with its
    decimal value. *)
Lemma stringToBigInt_decimal s m :
  Str.digits 10 s = Some m -> JS.stringToBigInt s = Some (Z.of_N m).
Proof.
  intros Hd. unfold JS.stringToBigInt. rewrite (digits_trim _ _ _ Hd).
  destruct s as [|c r]; [discriminate|].
  assert (Hc : exists d, Str.digit 10 c = Some d).
  { cbn in Hd. destruct (Str.digit 10 c); [eauto|discriminate]. }
  destruct Hc as [d Hc].
  destruct c as [[|] [|] [|] [|] [|] [|] [|] [|]]; try discriminate Hc;
    try (rewrite Hd; reflexivity).
  destruct r as [|c' r']; [rewrite Hd; reflexivity|].
  assert (Hc' : exists d', Str.digit 10 c' = Some d').
  { cbn in Hd. destruct (Str.digit 10 c'); [eauto|discriminate]. }
  destruct Hc' as [d' Hc'].
  destruct (digit_decimal_no_radix_mark _ _ Hc') as (-> & -> & ->).
  rewrite Hd. reflexivity.
Qed.

End DecimalNumerals.



(* ===================================================================== *)
(** ** More on validation and on the client *)
(* ===================================================================== *)

Section ClientMore.

Variable transformResponse : string -> value -> outcome native_error value.
Variable post : Api.requestBody -> outcome Api.rejection value.
Variable nativeMessage : native_error -> string.

Abbreviation request' := (Api.request transformResponse post nativeMessage).
Abbreviation requestAt' := (Api.requestAt transformResponse post nativeMessage).

(** What [validateParams] decides for [eth_getTransactionByHash]. *)
Lemma validate_getTransactionByHash ps :
  Api.validateParams "eth_getTransactionByHash" ps =
  match ps with
  | Some [VStr s] =>
      if Str.startsWith s "0x" then Ok tt
      else Throw (Api.invalidParams "Invalid transaction hash parameter")
  | _ => Throw (Api.invalidParams "Invalid transaction hash parameter")
  end.
Proof.
  destruct ps as [[|a l]|]; try reflexivity.
  destruct a; destruct l as [|a2 l]; try reflexivity.
  unfold Api.validateParams. cbn. now destruct (Str.startsWith s "0x").
Qed.

(** Every error of [validateParams] is an INVALID_PARAMS
    [ValidationCloudError] without details, for one of the three
    validated methods. *)
Lemma validateParams_Throw method ps e :
  Api.validateParams method ps = Throw e ->
  In method validatedMethods /\
  exists message,
    e = Api.ValidationCloudError message
          (num Api.EthereumErrorCode.INVALID_PARAMS) VUndefined.
Proof.
  unfold Api.validateParams, oneOf. cbn [existsb orb].
  destruct (String.eqb_spec method "eth_getBalance") as [->|_].
  { cbn [orb]. intros H. split; [cbn; tauto|].
    repeat match type of H with
           | (if ?b then _ else _) = _ => destruct b
           end; inversion H; eauto. }
  destruct (String.eqb_spec method "eth_getTransactionByHash") as [->|_].
  { cbn [orb]. intros H. split; [cbn; tauto|].
    repeat match type of H with
           | (if ?b then _ else _) = _ => destruct b
           end; inversion H; eauto. }
  destruct (String.eqb_spec method "eth_getLogs") as [->|_].
  { cbn [orb]. intros H. split; [cbn; tauto|].
    repeat match type of H with
           | (if ?b then _ else _) = _ => destruct b
           end; inversion H; eauto. }
  discriminate.
Qed.

Lemma validateParams_Ok method ps u : Api.validateParams method ps = Ok u -> u = tt.
Proof. now destruct u. Qed.

(** When validation passes, [request] hands exactly one envelope to the
    HTTP client and advances [messageId], whatever the client answers. *)
Lemma request_sends c p :
  passesValidation p = true ->
  Api.sent (fst (request' c p)) = (Api.sent c ++ [envelope (Api.messageId c) p])%list /\
  Api.messageId (fst (request' c p)) = Api.messageId c + 1.
Proof.
  unfold passesValidation, Api.request.
  destruct (Api.validateParams _ _); [|discriminate]. intros _.
  unfold Api.send. cbn. split; reflexivity.
Qed.

Lemma request_keeps c p :
  passesValidation p = false -> fst (request' c p) = c.
Proof.
  unfold passesValidation, Api.request.
  now destruct (Api.validateParams _ _).
Qed.

End ClientMore.

(** X1. For [eth_getTransactionByHash], validation passes exactly when
    [params] is one string beginning with ["0x"]; in every other case
    [request] throws the INVALID_PARAMS error "Invalid transaction hash
    parameter" and hands nothing to the HTTP client. *)
Theorem getTransactionByHash_validation
  (transformResponse : string -> value -> outcome native_error value)
  (post : Api.requestBody -> outcome Api.rejection value)
  (nativeMessage : native_error -> string)
  (c : Api.client) (ps : option (list value)) :
  (Api.validateParams "eth_getTransactionByHash" ps = Ok tt <->
   exists rest, ps = Some [VStr ("0x" +:+ rest)]) /\
  ((forall rest, ps <> Some [VStr ("0x" +:+ rest)]) ->
   Api.request transformResponse post nativeMessage c
     {| Api.method := "eth_getTransactionByHash"; Api.params := ps |}
   = (c, Throw (Api.ValidationCloudError "Invalid transaction hash parameter"
                  (num Api.EthereumErrorCode.INVALID_PARAMS) VUndefined))).
Proof.
  assert (Hiff : Api.validateParams "eth_getTransactionByHash" ps = Ok tt <->
                 exists rest, ps = Some [VStr ("0x" +:+ rest)]).
  { rewrite validate_getTransactionByHash. split.
    - destruct ps as [[|a l]|]; try discriminate.
      destruct a; destruct l as [|a2 l]; try discriminate.
      destruct (Str.startsWith s "0x") eqn:Hs; [|discriminate].
      intros _. apply startsWith_0x in Hs as [rest ->]. now exists rest.
    - intros [rest ->].
      replace (Str.startsWith ("0x" +:+ rest) "0x") with true; [reflexivity|].
      symmetry. apply startsWith_0x. now exists rest. }
  split; [exact Hiff|].
  intros Hno.
  destruct (Api.validateParams "eth_getTransactionByHash" ps) as [[]|e] eqn:Hv.
  - destruct (proj1 Hiff eq_refl) as [rest ->]. now destruct (Hno rest).
  - pose proof Hv as Hv'. rewrite validate_getTransactionByHash in Hv'.
    assert (He : e = Api.invalidParams "Invalid transaction hash parameter").
    { destruct ps as [[|a l]|]; try (now injection Hv').
      destruct a; destruct l as [|a2 l]; try (now injection Hv').
      destruct (Str.startsWith s "0x"); [discriminate|now injection Hv']. }
    subst e. unfold Api.request. cbn [Api.method Api.params]. now rewrite Hv.
Qed.

Lemma getTransactionByHash_validation_witness :
  Api.request Utils.transformResponse (fun _ => Ok VNull) (fun _ => "")
    {| Api.messageId := 1; Api.sent := [] |}
    {| Api.method := "eth_getTransactionByHash"; Api.params := Some [VStr "invalid-hash"] |}
  = ({| Api.messageId := 1; Api.sent := [] |},
     Throw (Api.ValidationCloudError "Invalid transaction hash parameter"
              (num (-32602)) VUndefined)).
Proof.
  apply (proj2 (getTransactionByHash_validation Utils.transformResponse
                  (fun _ => Ok VNull) (fun _ => "")
                  {| Api.messageId := 1; Api.sent := [] |}
                  (Some [VStr "invalid-hash"]))).
  intros rest. rewrite append_0x. discriminate.
Defined.

(** X2. A request that fails validation, whatever its method, is
    rejected before any outbound call: the error is an INVALID_PARAMS
    [ValidationCloudError] without details, the method is one of the three
    validated ones, and the instance is unchanged. The same holds for the
    draft whose identifier is the clock. *)
Theorem validation_failure_is_preflight
  (transformResponse : string -> value -> outcome native_error value)
  (post : Api.requestBody -> outcome Api.rejection value)
  (nativeMessage : native_error -> string)
  (c : Api.client) (now : Z) (log : list Api.requestBody)
  (p : Api.NodeRequestParams) (e : Api.error)
  (H : Api.validateParams (Api.method p) (Api.params p) = Throw e) :
  In (Api.method p) validatedMethods /\
  (exists message,
     e = Api.ValidationCloudError message
           (num Api.EthereumErrorCode.INVALID_PARAMS) VUndefined) /\
  Api.request transformResponse post nativeMessage c p = (c, Throw e) /\
  Api.requestAt transformResponse post nativeMessage now log p = (log, Throw e).
Proof.
  destruct (validateParams_Throw _ _ _ H) as [Hin [message ->]].
  repeat apply conj; eauto; unfold Api.request, Api.requestAt; now rewrite H.
Qed.

Lemma validation_failure_is_preflight_witness :
  Api.request Utils.transformResponse (fun _ => Ok VNull) (fun _ => "")
    {| Api.messageId := 7; Api.sent := [] |}
    {| Api.method := "eth_getLogs"; Api.params := Some [] |}
  = ({| Api.messageId := 7; Api.sent := [] |},
     Throw (Api.invalidParams "eth_getLogs requires a filter object parameter")).
Proof.
  exact (proj1 (proj2 (proj2
    (validation_failure_is_preflight Utils.transformResponse
       (fun _ => Ok VNull) (fun _ => "")
       {| Api.messageId := 7; Api.sent := [] |} 0 []
       {| Api.method := "eth_getLogs"; Api.params := Some [] |}
       (Api.invalidParams "eth_getLogs requires a filter object parameter")
       eq_refl)))).
Defined.

Section Sequences.

Variable transformResponse : string -> value -> outcome native_error value.
Variable post : Api.requestBody -> outcome Api.rejection value.
Variable nativeMessage : native_error -> string.

Abbreviation request'' := (Api.request transformResponse post nativeMessage).
Abbreviation requests' := (requests transformResponse post nativeMessage).

Lemma request_numbered c p : numbered c -> numbered (fst (request'' c p)).
Proof.
  intros [Hids Hnext]. destruct (passesValidation p) eqn:Hp.
  - destruct (request_sends transformResponse post nativeMessage c p Hp) as [Hs Hm].
    unfold numbered, sentIds. rewrite Hs, Hm, map_app, length_app. cbn [map length].
    fold (sentIds c). rewrite Hids, Hnext. split; [|lia].
    replace (length (Api.sent c) + 1)%nat with (S (length (Api.sent c))) by lia.
    now rewrite seqZ_S.
  - now rewrite request_keeps.
Qed.

Lemma requests_numbered ps : forall c, numbered c -> numbered (requests' c ps).
Proof.
  induction ps as [|p ps IH]; intros c Hc; [exact Hc|].
  cbn [requests fold_left]. apply IH. now apply request_numbered.
Qed.

(** The envelopes of a sequence of requests: one for each request that
    passes validation, in order, numbered from [messageId] on. *)
Lemma requests_sent ps : forall c,
  Api.sent (requests' c ps)
  = (Api.sent c ++
     imap (fun i p => envelope (Api.messageId c + Z.of_nat i) p)
       (List.filter passesValidation ps))%list /\
  Api.messageId (requests' c ps)
  = Api.messageId c + Z.of_nat (length (List.filter passesValidation ps)).
Proof.
  induction ps as [|p ps IH]; intros c.
  - cbn. rewrite app_nil_r. split; [reflexivity|lia].
  - cbn [requests fold_left List.filter].
    destruct (IH (fst (request'' c p))) as [Hs Hm]. fold requests in Hs, Hm.
    unfold requests in *. rewrite Hs, Hm.
    destruct (passesValidation p) eqn:Hp.
    + destruct (request_sends transformResponse post nativeMessage c p Hp) as [Hs1 Hm1].
      rewrite Hs1, Hm1. cbn [imap length]. rewrite <- app_assoc. cbn [app].
      rewrite Z.add_0_r. split; [|lia].
      do 2 f_equal. apply imap_ext. intros i x _. cbn. f_equal. lia.
    + rewrite request_keeps by exact Hp. split; reflexivity.
Qed.

End Sequences.



(** X4. When validation passes and the HTTP call resolves with an object
    body whose [result] is present, [request] returns that body with
    [result] replaced by what the normaliser makes of it and every other
    entry ([id], [jsonrpc], ...) as received. *)
Theorem request_normalises_result
  (transformResponse : string -> value -> outcome native_error value)
  (post : Api.requestBody -> outcome Api.rejection value)
  (nativeMessage : native_error -> string)
  (c : Api.client) (p : Api.NodeRequestParams)
  (body : gmap string value) (r r' : value)
  (Hvalid : passesValidation p = true)
  (Hpost : post (envelope (Api.messageId c) p) = Ok (VObj body))
  (Hresult : body !! "result" = Some r)
  (Hdefined : r <> VUndefined)
  (Hnorm : transformResponse (Api.method p) r = Ok r') :
  exists out,
    snd (Api.request transformResponse post nativeMessage c p) = Ok (VObj out) /\
    out !! "result" = Some r' /\
    (forall k, k <> "result" -> out !! k = body !! k).
Proof.
  exists (<["result" := r']> body). repeat apply conj.
  - unfold passesValidation in Hvalid. unfold Api.request, Api.send.
    destruct (Api.validateParams _ _); [|discriminate].
    fold (envelope (Api.messageId c) p). rewrite Hpost.
    unfold Api.normalise, JS.get. cbn [JS.ownProps snd Api.caught]. rewrite Hresult.
    cbn [default from_option id]. destruct r; try congruence; rewrite Hnorm; reflexivity.
  - apply lookup_insert_eq.
  - intros k Hk. now apply lookup_insert_ne.
Qed.

Lemma request_normalises_result_witness :
  snd (Api.request UtilsGuarded.transformResponse
         (fun _ => Ok (obj [("jsonrpc", VStr "2.0"); ("id", num 1);
                            ("result", VStr "0x1234")]))
         (fun _ => "")
         {| Api.messageId := 1; Api.sent := [] |}
         {| Api.method := "eth_blockNumber"; Api.params := None |})
  = Ok (obj [("jsonrpc", VStr "2.0"); ("id", num 1); ("result", num 4660)]).
Proof.
  destruct (request_normalises_result UtilsGuarded.transformResponse
              (fun _ => Ok (obj [("jsonrpc", VStr "2.0"); ("id", num 1);
                                 ("result", VStr "0x1234")]))
              (fun _ => "")
              {| Api.messageId := 1; Api.sent := [] |}
              {| Api.method := "eth_blockNumber"; Api.params := None |}
              (list_to_map [("jsonrpc", VStr "2.0"); ("id", num 1);
                            ("result", VStr "0x1234")])
              (VStr "0x1234") (num 4660)
              eq_refl eq_refl eq_refl ltac:(discriminate) eq_refl)
    as (out & Hout & _).
  vm_compute. reflexivity.
Defined.

Section Failures.

Variable transformResponse : string -> value -> outcome native_error value.
Variable post : Api.requestBody -> outcome Api.rejection value.
Variable nativeMessage : native_error -> string.

Lemma newValidationCloudError_shape message code details :
  (exists text, Api.newValidationCloudError message code details
                = Api.ValidationCloudError text code details) \/
  (exists e, Api.newValidationCloudError message code details = Api.Native e).
Proof.
  unfold Api.newValidationCloudError.
  destruct message; try (left; eexists; reflexivity);
    destruct (JS.toString _); eauto.
Qed.

Lemma newValidationCloudError_text text code details :
  Api.newValidationCloudError (VStr text) code details
  = Api.ValidationCloudError text code details.
Proof. reflexivity. Qed.

Lemma rethrow_shape e :
  (exists text code details,
     Api.rethrow nativeMessage e = Api.ValidationCloudError text code details) \/
  (exists n, Api.rethrow nativeMessage e = Api.Native n).
Proof.
  destruct e as [n|text code details|r]; cbn [Api.rethrow].
  - left. eauto.
  - left. eauto.
  - destruct (Api.isAxiosError r).
    + destruct (newValidationCloudError_shape
                  (Api.orElse
                     match match Api.errorResponse r with
                           | Some (_, d) => d
                           | None => VUndefined
                           end with
                     | VUndefined | VNull => VUndefined
                     | _ => JS.get match Api.errorResponse r with
                                   | Some (_, d) => d
                                   | None => VUndefined
                                   end "message"
                     end (Api.errorMessage r))
                  match Api.errorResponse r with
                  | Some (s, _) => s
                  | None => VUndefined
                  end
                  match Api.errorResponse r with
                  | Some (_, d) => d
                  | None => VUndefined
                  end) as [[t ->] | [n ->]]; eauto.
    + destruct (newValidationCloudError_shape
                  (if Api.instanceOfError r then Api.errorMessage r
                   else VStr "Unknown error") VUndefined VUndefined)
        as [[t ->] | [n ->]]; eauto.
Qed.

Lemma request_outcome c p :
  snd (Api.request transformResponse post nativeMessage c p)
  = match Api.validateParams (Api.method p) (Api.params p) with
    | Throw e => Throw (Api.rethrow nativeMessage e)
    | Ok _ =>
        Api.caught nativeMessage
          match post (envelope (Api.messageId c) p) with
          | Throw r => Throw (Api.Rejected r)
          | Ok data => Api.normalise transformResponse (Api.method p) data
          end
    end.
Proof.
  unfold Api.request, Api.send. now destruct (Api.validateParams _ _).
Qed.

(** Whatever [request] throws is a [ValidationCloudError] or a native
    error. *)
Lemma request_throws c p e :
  snd (Api.request transformResponse post nativeMessage c p) = Throw e ->
  (exists text code details, e = Api.ValidationCloudError text code details) \/
  (exists n, e = Api.Native n).
Proof.
  rewrite request_outcome.
  destruct (Api.validateParams _ _) as [u|e0].
  - destruct (post _) as [data|r]; unfold Api.caught.
    + destruct (Api.normalise _ _ _) as [v|e1]; [discriminate|].
      intros [= <-]. apply rethrow_shape.
    + intros [= <-]. exact (rethrow_shape (Api.Rejected r)).
  - intros [= <-]. apply rethrow_shape.
Qed.

End Failures.




(** X7. What goes wrong after the HTTP call has resolved surfaces as a
    [ValidationCloudError] with the engine's message and neither code nor
    details: a body that is [null] or missing (the read of [result]
    fails), and a [result] on which the normaliser throws. *)
Theorem processing_failure_is_wrapped
  (transformResponse : string -> value -> outcome native_error value)
  (post : Api.requestBody -> outcome Api.rejection value)
  (nativeMessage : native_error -> string)
  (c : Api.client) (p : Api.NodeRequestParams) (data : value)
  (Hvalid : passesValidation p = true)
  (Hpost : post (envelope (Api.messageId c) p) = Ok data) :
  let thrown := snd (Api.request transformResponse post nativeMessage c p) in
  (data = VNull \/ data = VUndefined ->
   thrown = Throw (Api.ValidationCloudError (nativeMessage TypeError)
                     VUndefined VUndefined)) /\
  (forall body r e,
     data = VObj body -> body !! "result" = Some r -> r <> VUndefined ->
     transformResponse (Api.method p) r = Throw e ->
     thrown = Throw (Api.ValidationCloudError (nativeMessage e) VUndefined VUndefined)).
Proof.
  intros thrown. unfold thrown. rewrite request_outcome.
  unfold passesValidation in Hvalid.
  destruct (Api.validateParams _ _); [|discriminate]. rewrite Hpost. split.
  - intros [-> | ->]; reflexivity.
  - intros body r e -> Hr Hd He.
    unfold Api.normalise, JS.get. cbn [JS.ownProps]. rewrite Hr. cbn [default from_option id].
    destruct r; try congruence; rewrite He; reflexivity.
Qed.

Lemma processing_failure_is_wrapped_witness :
  snd (Api.request Utils.transformResponse
         (fun _ => Ok (obj [("result", obj [("hash", VStr "0x123")])]))
         (fun _ => "Cannot read properties of undefined")
         {| Api.messageId := 1; Api.sent := [] |}
         {| Api.method := "eth_getBlockByHash";
            Api.params := Some [VStr "0x123"; VBool false] |})
  = Throw (Api.ValidationCloudError "Cannot read properties of undefined"
             VUndefined VUndefined).
Proof.
  exact (proj2 (processing_failure_is_wrapped Utils.transformResponse
            (fun _ => Ok (obj [("result", obj [("hash", VStr "0x123")])]))
            (fun _ => "Cannot read properties of undefined")
            {| Api.messageId := 1; Api.sent := [] |}
            {| Api.method := "eth_getBlockByHash";
               Api.params := Some [VStr "0x123"; VBool false] |}
            _ eq_refl eq_refl)
            (list_to_map [("result", obj [("hash", VStr "0x123")])])
            (obj [("hash", VStr "0x123")]) TypeError
            eq_refl eq_refl ltac:(discriminate) eq_refl).
Defined.

(** X8. [testConnection] never throws and always hands exactly one
    [eth_blockNumber] envelope with empty [params] to the HTTP client. It
    answers [false] when the call is rejected or the body is [null], and
    [true] when the body is an object without [result] (a JSON-RPC error
    body included) or with a [result] the normaliser accepts. *)
Theorem testConnection_outcome
  (transformResponse : string -> value -> outcome native_error value)
  (post : Api.requestBody -> outcome Api.rejection value)
  (nativeMessage : native_error -> string) (c : Api.client) :
  let sentEnvelope :=
    {| Api.jsonrpc := "2.0"; Api.id := Api.messageId c;
       Api.bodyMethod := "eth_blockNumber"; Api.bodyParams := [] |} in
  let c' := fst (Api.testConnection transformResponse post nativeMessage c) in
  let answer := snd (Api.testConnection transformResponse post nativeMessage c) in
  Api.sent c' = (Api.sent c ++ [sentEnvelope])%list /\
  Api.messageId c' = Api.messageId c + 1 /\
  (forall r, post sentEnvelope = Throw r -> answer = false) /\
  (post sentEnvelope = Ok VNull -> answer = false) /\
  (forall body, post sentEnvelope = Ok (VObj body) ->
     body !! "result" = None -> answer = true) /\
  (forall body r, post sentEnvelope = Ok (VObj body) ->
     body !! "result" = Some r -> r <> VUndefined ->
     (answer = true <-> exists r', transformResponse "eth_blockNumber" r = Ok r')).
Proof.
  intros sentEnvelope c' answer. unfold c', answer, Api.testConnection.
  unfold Api.request. cbn [Api.method Api.params Api.validateParams].
  change (Api.validateParams "eth_blockNumber" None) with (@Ok Api.error unit tt).
  unfold Api.send. cbn [Api.method Api.params default].
  fold sentEnvelope. cbn [fst snd Api.sent Api.messageId].
  repeat apply conj; try reflexivity.
  - intros r ->. cbn [Api.caught]. reflexivity.
  - intros ->. reflexivity.
  - intros body -> Hr. unfold Api.normalise, JS.get. cbn [JS.ownProps].
    rewrite Hr. reflexivity.
  - intros body r -> Hr Hd. unfold Api.normalise, JS.get. cbn [JS.ownProps].
    rewrite Hr. cbn [default from_option id].
    destruct r; try congruence;
      destruct (transformResponse "eth_blockNumber" _) as [r'|e];
      cbn [Api.lift bind Api.caught]; split; eauto; try discriminate;
      intros [r'' Hr'']; discriminate Hr''.
Qed.

Lemma testConnection_outcome_witness :
  snd (Api.testConnection UtilsGuarded.transformResponse
         (fun _ => Ok (obj [("jsonrpc", VStr "2.0"); ("id", num 1);
                            ("error", obj [("code", num (-32601));
                                           ("message", VStr "Method not found")])]))
         (fun _ => "") {| Api.messageId := 1; Api.sent := [] |})
  = true.
Proof.
  exact (proj1 (proj2 (proj2 (proj2 (proj2
           (testConnection_outcome UtilsGuarded.transformResponse
              (fun _ => Ok (obj [("jsonrpc", VStr "2.0"); ("id", num 1);
                                 ("error", obj [("code", num (-32601));
                                                ("message", VStr "Method not found")])]))
              (fun _ => "") {| Api.messageId := 1; Api.sent := [] |})))))
           (list_to_map [("jsonrpc", VStr "2.0"); ("id", num 1);
                         ("error", obj [("code", num (-32601));
                                        ("message", VStr "Method not found")])])
           eq_refl eq_refl).
Defined.

(* ===================================================================== *)
(** ** The tool handler of the server *)
(* ===================================================================== *)

Section ToolCalls.

Variable state : Type.
Variable apiRequest : state -> string -> value -> state * outcome Api.error value.

Abbreviation callTool' := (Server.callTool state apiRequest).

(** The handler reaches the API exactly when the tool name, the
    arguments and the method pass its three guards. *)
Lemma callTool_call st arguments m :
  isObject arguments = true -> JS.get arguments "method" = VStr m ->
  callTool' st "ethereum_request" arguments
  = (fst (apiRequest st m (Api.orElse (JS.get arguments "params") (VArr []))),
     match snd (apiRequest st m (Api.orElse (JS.get arguments "params") (VArr []))) with
     | Ok results => Ok (obj [("toolResult", results)])
     | Throw (Api.ValidationCloudError message _ _) => Ok (Server.errorResult message)
     | Throw e => Throw (Server.Propagated e)
     end).
Proof.
  unfold isObject, Server.callTool. intros Ho Hm.
  change (String.eqb "ethereum_request" "ethereum_request") with true. cbv iota.
  apply andb_true_iff in Ho as [-> ->]. cbn [negb orb]. rewrite Hm.
  now destruct (apiRequest _ _ _).
Qed.

End ToolCalls.

(** X16. The guards of the tool handler. A call for another tool than
    [ethereum_request] is refused with MethodNotFound; arguments that
    are missing, [null] or no object are refused with InvalidParams; so
    are arguments, an array included, whose [method] is no string. In all
    three cases the API is not reached; and the handler throws an
    [McpError] in no other case. *)
Theorem tool_call_guards
  (state : Type)
  (apiRequest : state -> string -> value -> state * outcome Api.error value)
  (st : state) (name : string) (arguments : value) :
  let answer := Server.callTool state apiRequest st name arguments in
  (name <> "ethereum_request" ->
   answer = (st, Throw (Server.McpError Server.MethodNotFound "Unknown tool"))) /\
  (name = "ethereum_request" -> isObject arguments = false ->
   answer = (st, Throw (Server.McpError Server.InvalidParams
                          "Invalid arguments for ethereum_request"))) /\
  (name = "ethereum_request" -> isObject arguments = true ->
   (forall m, JS.get arguments "method" <> VStr m) ->
   answer = (st, Throw (Server.McpError Server.InvalidParams
                          "Method must be a string"))) /\
  (forall code message,
     snd answer = Throw (Server.McpError code message) ->
     fst answer = st /\
     (name <> "ethereum_request" \/ isObject arguments = false \/
      forall m, JS.get arguments "method" <> VStr m)).
Proof.
  intros answer. unfold answer, Server.callTool, isObject.
  destruct (String.eqb_spec name "ethereum_request") as [->|Hn].
  - destruct (JS.toBoolean arguments); cbn [negb orb andb].
    + destruct (String.eqb (JS.typeof arguments) "object"); cbn [negb].
      * repeat apply conj; try congruence.
        -- intros _ _ Hm. destruct (JS.get arguments "method"); try reflexivity.
           now destruct (Hm s).
        -- intros code message.
           destruct (JS.get arguments "method") eqn:Hg;
             try (intros _; split; [reflexivity|]; right; right; congruence).
           destruct (apiRequest st s _) as [st' [r|[n|t co d|rj]]];
             cbn [snd]; discriminate.
      * repeat apply conj; try congruence; auto.
    + repeat apply conj; try congruence; auto.
  - repeat apply conj; try congruence; auto.
Qed.

Lemma tool_call_guards_witness :
  Server.callTool unit (fun st _ _ => (st, Ok VNull)) tt "ethereum_request"
    (VArr [VStr "eth_blockNumber"])
  = (tt, Throw (Server.McpError Server.InvalidParams "Method must be a string")).
Proof.
  refine (proj1 (proj2 (proj2
            (tool_call_guards unit (fun st _ _ => (st, Ok VNull)) tt "ethereum_request"
               (VArr [VStr "eth_blockNumber"])))) eq_refl eq_refl _).
  intros m. vm_compute. discriminate.
Defined.

(** X17. A tool call served by [ValidationCloudAPI.request]. When the
    arguments are an object whose [method] is a string and whose [params]
    is missing, falsy or an array, the handler asks the API once, with
    [params || []]. If the parameters fail validation, nothing is sent
    and the caller gets, as a normal result, the error content with the
    validation message; otherwise exactly one envelope goes out, and the
    handler returns [{ toolResult }] or the error content of a
    [ValidationCloudError]; it never lets a rejection of the HTTP client
    through. *)
Theorem tool_call_served_by_request
  (transformResponse : string -> value -> outcome native_error value)
  (post : Api.requestBody -> outcome Api.rejection value)
  (nativeMessage : native_error -> string)
  (apiRequest : Api.client -> string -> value -> Api.client * outcome Api.error value)
  (Harray : forall c m l,
     apiRequest c m (VArr l)
     = Api.request transformResponse post nativeMessage c
         {| Api.method := m; Api.params := Some l |})
  (c : Api.client) (arguments : value) (m : string) (l : list value)
  (Hobject : isObject arguments = true)
  (Hmethod : JS.get arguments "method" = VStr m)
  (Hparams : Api.orElse (JS.get arguments "params") (VArr []) = VArr l) :
  let p := {| Api.method := m; Api.params := Some l |} in
  let answer := Server.callTool Api.client apiRequest c "ethereum_request" arguments in
  (if passesValidation p
   then Api.sent (fst answer) = (Api.sent c ++ [envelope (Api.messageId c) p])%list
   else fst answer = c /\
        exists message,
          Api.validateParams m (Some l)
          = Throw (Api.ValidationCloudError message
                     (num Api.EthereumErrorCode.INVALID_PARAMS) VUndefined) /\
          snd answer = Ok (Server.errorResult message)) /\
  match snd answer with
  | Ok v =>
      (exists results,
         snd (Api.request transformResponse post nativeMessage c p) = Ok results /\
         v = obj [("toolResult", results)]) \/
      (exists message code details,
         snd (Api.request transformResponse post nativeMessage c p)
         = Throw (Api.ValidationCloudError message code details) /\
         v = Server.errorResult message)
  | Throw (Server.Propagated (Api.Native _)) => True
  | Throw _ => False
  end.
Proof.
  intros p answer. unfold answer.
  rewrite (callTool_call _ _ _ _ _ Hobject Hmethod), Hparams, Harray.
  fold p. cbn [fst snd]. split.
  - destruct (passesValidation p) eqn:Hv.
    + exact (proj1 (request_sends transformResponse post nativeMessage c p Hv)).
    + split; [exact (request_keeps transformResponse post nativeMessage c p Hv)|].
      rewrite request_outcome. unfold passesValidation in Hv. cbn [p Api.method Api.params] in *.
      destruct (Api.validateParams m (Some l)) as [u|e] eqn:He; [discriminate|].
      destruct (validateParams_Throw _ _ _ He) as (_ & message & ->).
      exists message. split; reflexivity.
  - destruct (snd (Api.request transformResponse post nativeMessage c p))
      as [results|e] eqn:Hr; [eauto|].
    destruct (request_throws _ _ _ _ _ _ Hr) as [(t & co & d & ->) | (n & ->)];
      [right; eauto | exact I].
Qed.

Lemma tool_call_served_by_request_witness :
  Server.callTool Api.client
    (fun c m v =>
       match v with
       | VArr l => Api.request Utils.transformResponse (fun _ => Ok VNull) (fun _ => "") c
                     {| Api.method := m; Api.params := Some l |}
       | _ => (c, Throw (Api.Native TypeError))
       end)
    {| Api.messageId := 1; Api.sent := [] |} "ethereum_request"
    (obj [("method", VStr "eth_getBalance")])
  = ({| Api.messageId := 1; Api.sent := [] |},
     Ok (Server.errorResult "eth_getBalance requires address and block parameters")).
Proof.
  destruct (tool_call_served_by_request Utils.transformResponse (fun _ => Ok VNull)
              (fun _ => "")
              (fun c m v =>
                 match v with
                 | VArr l => Api.request Utils.transformResponse (fun _ => Ok VNull)
                               (fun _ => "") c
                               {| Api.method := m; Api.params := Some l |}
                 | _ => (c, Throw (Api.Native TypeError))
                 end)
              (fun _ _ _ => eq_refl)
              {| Api.messageId := 1; Api.sent := [] |}
              (obj [("method", VStr "eth_getBalance")]) "eth_getBalance" []
              eq_refl eq_refl eq_refl) as [_ _].
  vm_compute. reflexivity.
Defined.

(* ===================================================================== *)
(** ** The constructors *)
(* ===================================================================== *)

(** X18. The constructor of [ValidationCloudAPI]. It throws 'API key is
    required' exactly when [apiKey] is falsy (missing, [null], the empty
    string). With a non-empty string key and a [baseURL] and [timeout]
    that are missing or a string and a Number, it never throws: the key
    is appended to the base URL after a slash, a missing or empty
    [baseURL] gives the default URL, a missing or zero [timeout] gives
    30000, and the new instance starts with [messageId] 1. *)
Theorem constructor_settings (config : Setup.ValidationCloudConfig) :
  (Setup.construct config = Throw Setup.ApiKeyRequired
   <-> JS.toBoolean (Setup.apiKey config) = false) /\
  (forall key,
     Setup.apiKey config = VStr key -> key <> "" ->
     (Setup.baseURL config = VUndefined \/ exists url, Setup.baseURL config = VStr url) ->
     exists settings,
       Setup.construct config
       = Ok (settings, {| Api.messageId := 1; Api.sent := [] |}) /\
       Setup.axiosBaseURL settings
       = match Setup.baseURL config with
         | VStr (String c url) => String c url
         | _ => Setup.DEFAULT_BASE_URL
         end +:+ "/" +:+ key /\
       Setup.axiosTimeout settings
       = (if JS.toBoolean (Setup.timeout config) then Setup.timeout config
          else num 30000) /\
       (Setup.timeout config = num 0 -> Setup.axiosTimeout settings = num 30000) /\
       Setup.axiosHeaders settings = [("Content-Type", "application/json")]).
Proof.
  unfold Setup.construct. split.
  - destruct (JS.toBoolean (Setup.apiKey config)); cbn [negb]; [|tauto].
    split; [|discriminate].
    destruct (JS.toString (Api.orElse _ _)); cbn [Setup.converting bind];
      [|discriminate].
    destruct (JS.toString (Setup.apiKey config)); cbn [Setup.converting bind];
      discriminate.
  - intros key Hk Hne Hb. rewrite Hk, (toBoolean_nonempty _ Hne). cbn [negb].
    exists {| Setup.axiosBaseURL :=
                match Setup.baseURL config with
                | VStr (String c url) => String c url
                | _ => Setup.DEFAULT_BASE_URL
                end +:+ "/" +:+ key;
              Setup.axiosTimeout :=
                Api.orElse (Setup.timeout config) (num Setup.DEFAULT_TIMEOUT);
              Setup.axiosHeaders := [("Content-Type", "application/json")] |}.
    cbn [Setup.axiosBaseURL Setup.axiosTimeout Setup.axiosHeaders].
    repeat apply conj; try reflexivity.
    + destruct Hb as [-> | [url ->]]; [reflexivity|]. now destruct url.
    + intros ->. reflexivity.
Qed.

Lemma constructor_settings_witness :
  exists settings,
    Setup.construct {| Setup.apiKey := VStr "test-api-key";
                       Setup.baseURL := VStr "https://test.validationcloud.io/v1";
                       Setup.timeout := num 0 |}
    = Ok (settings, {| Api.messageId := 1; Api.sent := [] |}) /\
    Setup.axiosBaseURL settings = "https://test.validationcloud.io/v1/test-api-key" /\
    Setup.axiosTimeout settings = num 30000.
Proof.
  destruct (proj2 (constructor_settings
                     {| Setup.apiKey := VStr "test-api-key";
                        Setup.baseURL := VStr "https://test.validationcloud.io/v1";
                        Setup.timeout := num 0 |})
              "test-api-key" eq_refl ltac:(discriminate)
              (or_intror (ex_intro _ "https://test.validationcloud.io/v1" eq_refl)))
    as (settings & Hc & Hu & _ & Ht & _).
  exists settings. repeat apply conj; [exact Hc | exact Hu | exact (Ht eq_refl)].
Defined.

(** X19. The start of the server. Without the environment variable, or
    with an empty one, the constructor of [ValidationCloudServer] throws
    its own error; otherwise it creates the API client with the default
    base URL followed by the key and the default timeout. The 'API key is
    required' error of the client's constructor cannot occur. *)
Theorem server_initialisation (env : option string) :
  match Server.initialise env with
  | Ok (settings, c) =>
      exists key,
        env = Some key /\ key <> "" /\
        Setup.axiosBaseURL settings = Setup.DEFAULT_BASE_URL +:+ "/" +:+ key /\
        Setup.axiosTimeout settings = num Setup.DEFAULT_TIMEOUT /\
        c = {| Api.messageId := 1; Api.sent := [] |}
  | Throw Server.EnvironmentRequired => env = None \/ env = Some ""
  | Throw (Server.Construction _) => False
  end.
Proof.
  destruct env as [[|c key]|]; cbn; eauto.
  eexists. repeat apply conj; try reflexivity. discriminate.
Qed.
